(** * Digital Farmer: the simulation core of [farm_game.py]

    A shallow embedding of the [FarmingGame] class: its state, the player
    operations [plant], [water], [harvest], [visit_shop], the day advance
    with its random event, the dispatch of the main loop, and the lines
    printed by [display_status].  The rest of the presentation code
    ([display_inventory], whose lines follow the insertion order of the
    dictionary, [print_slow], [clear_screen]) changes no state and is
    left out; what an operation prints is kept as an [outcome] tag. *)

From Stdlib Require Import ZArith QArith Ascii String List Lia.
From stdpp Require Import gmap strings list fin_maps pretty.

Local Open Scope string_scope.
Local Open Scope Z_scope.

(** ** Game configuration *)

(** One entry of [CROP_DATA].  The icon and the info text are only
    printed. *)
Record crop_info := {
  growth_time : Z;
  seed_price : Z;
  sell_price : Z
}.

(** The dictionary [CROP_DATA], in the order of its literal. *)
Definition CROP_DATA : list (string * crop_info) :=
  [ ("wheat",  {| growth_time := 4; seed_price := 10; sell_price := 25 |});
    ("corn",   {| growth_time := 5; seed_price := 15; sell_price := 40 |});
    ("potato", {| growth_time := 3; seed_price := 5;  sell_price := 15 |});
    ("carrot", {| growth_time := 3; seed_price := 8;  sell_price := 20 |}) ].

(** [CROP_DATA[name]]: [None] stands for the [KeyError] of a missing key,
    and [name in CROP_DATA] is [is_Some (crop_lookup name)]. *)
Fixpoint assoc_lookup (name : string) (d : list (string * crop_info))
  : option crop_info :=
  match d with
  | [] => None
  | (k, v) :: d' => if String.eqb name k then Some v else assoc_lookup name d'
  end.

Definition crop_lookup (name : string) : option crop_info :=
  assoc_lookup name CROP_DATA.

Definition INITIAL_MONEY : Z := 100.
Definition INITIAL_PLOTS : nat := 4.
Definition GAME_GOAL : Z := 500.

(** ** State *)

(** A plot dictionary [{'crop': .., 'growth_stage': .., 'watered': ..}]. *)
Record plot := {
  crop : option string;
  growth_stage : Z;
  watered : bool
}.

Definition empty_plot : plot :=
  {| crop := None; growth_stage := 0; watered := false |}.

(** The attributes of a [FarmingGame] object. *)
Record FarmingGame := {
  money : Z;
  day : Z;
  farm_plots : list plot;
  inventory : gmap string Z;
  game_over : bool
}.

(** [FarmingGame.__init__]. *)
Definition init : FarmingGame :=
  {| money := INITIAL_MONEY;
     day := 1;
     farm_plots := replicate INITIAL_PLOTS empty_plot;
     inventory := <["potato seeds" := 5]> (<["wheat seeds" := 5]> ∅);
     game_over := false |}.

Definition set_money (g : FarmingGame) (m : Z) : FarmingGame :=
  {| money := m; day := day g; farm_plots := farm_plots g;
     inventory := inventory g; game_over := game_over g |}.

Definition set_day (g : FarmingGame) (d : Z) : FarmingGame :=
  {| money := money g; day := d; farm_plots := farm_plots g;
     inventory := inventory g; game_over := game_over g |}.

Definition set_farm_plots (g : FarmingGame) (ps : list plot) : FarmingGame :=
  {| money := money g; day := day g; farm_plots := ps;
     inventory := inventory g; game_over := game_over g |}.

Definition set_inventory (g : FarmingGame) (i : gmap string Z) : FarmingGame :=
  {| money := money g; day := day g; farm_plots := farm_plots g;
     inventory := i; game_over := game_over g |}.

Definition set_game_over (g : FarmingGame) (b : bool) : FarmingGame :=
  {| money := money g; day := day g; farm_plots := farm_plots g;
     inventory := inventory g; game_over := b |}.

(** ** What an operation reports

    The operations print a message and return nothing; the message is
    kept as a tag.  [InvalidNumber] is the handler of [ValueError];
    [KeyError] is the one exception the operations can leave uncaught
    (a crop name that is no key of [CROP_DATA]). *)
Inductive outcome :=
| Success
| InsufficientInventory (* You don't have any of those seeds. *)
| InvalidPlotIndex      (* That's not a valid plot number. *)
| PlotOccupied          (* There's already something growing in that plot! *)
| EmptyPlot             (* You can't water an empty plot. / Nothing to harvest there. *)
| NotReady              (* Your .. is not ready to be harvested yet! *)
| InsufficientFunds     (* You don't have enough money for that. *)
| UnknownCrop           (* We don't sell that here. *)
| InvalidNumber         (* Please enter a valid number. *)
| KeyError.

(** ** Player operations

    [plot_input] is the result of [int(input(..))]: [None] when [int]
    raises [ValueError], otherwise the number typed; the plot index is
    that number minus one.  String arguments are the values after
    [.lower()]. *)

(** [f"{seed_to_plant} seeds"]. *)
Definition seed_key (c : string) : string := String.append c " seeds".

(** [0 <= plot_num < len(self.farm_plots)]. *)
Definition valid_plot_num (plot_num : Z) (g : FarmingGame) : bool :=
  (0 <=? plot_num) && (plot_num <? Z.of_nat (length (farm_plots g))).

(** [FarmingGame.plant]. *)
Definition plant (seed_to_plant : string) (plot_input : option Z)
    (g : FarmingGame) : FarmingGame * outcome :=
  let seed_name := seed_key seed_to_plant in
  match inventory g !! seed_name with
  | None => (g, InsufficientInventory)
  | Some n =>
    if n =? 0 then (g, InsufficientInventory) else
    match plot_input with
    | None => (g, InvalidNumber)
    | Some typed =>
      let plot_num := typed - 1 in
      if negb (valid_plot_num plot_num g) then (g, InvalidPlotIndex) else
      match farm_plots g !! Z.to_nat plot_num with
      | None => (g, InvalidPlotIndex) (* excluded by the range check *)
      | Some p =>
        match crop p with
        | Some _ => (g, PlotOccupied)
        | None =>
          let planted :=
            {| crop := Some seed_to_plant; growth_stage := 0;
               watered := false |} in
          let g1 :=
            set_farm_plots g (<[Z.to_nat plot_num := planted]> (farm_plots g)) in
          let g2 := set_inventory g1 (<[seed_name := n - 1]> (inventory g1)) in
          let g3 :=
            if n - 1 =? 0
            then set_inventory g2 (delete seed_name (inventory g2))
            else g2 in
          (g3, Success)
        end
      end
    end
  end.

(** [FarmingGame.water]. *)
Definition water (plot_input : option Z) (g : FarmingGame)
  : FarmingGame * outcome :=
  match plot_input with
  | None => (g, InvalidNumber)
  | Some typed =>
    let plot_num := typed - 1 in
    if negb (valid_plot_num plot_num g) then (g, InvalidPlotIndex) else
    match farm_plots g !! Z.to_nat plot_num with
    | None => (g, InvalidPlotIndex) (* excluded by the range check *)
    | Some p =>
      match crop p with
      | None => (g, EmptyPlot)
      | Some _ =>
        let wet :=
          {| crop := crop p; growth_stage := growth_stage p;
             watered := true |} in
        (set_farm_plots g (<[Z.to_nat plot_num := wet]> (farm_plots g)),
         Success)
      end
    end
  end.

(** [FarmingGame.harvest]. *)
Definition harvest (plot_input : option Z) (g : FarmingGame)
  : FarmingGame * outcome :=
  match plot_input with
  | None => (g, InvalidNumber)
  | Some typed =>
    let plot_num := typed - 1 in
    if negb (valid_plot_num plot_num g) then (g, InvalidPlotIndex) else
    match farm_plots g !! Z.to_nat plot_num with
    | None => (g, InvalidPlotIndex) (* excluded by the range check *)
    | Some p =>
      match crop p with
      | None => (g, EmptyPlot)
      | Some crop_name =>
        match crop_lookup crop_name with
        | None => (g, KeyError)
        | Some info =>
          if growth_stage p <? growth_time info then (g, NotReady) else
          let g1 := set_money g (money g + sell_price info) in
          (set_farm_plots g1 (<[Z.to_nat plot_num := empty_plot]> (farm_plots g1)),
           Success)
        end
      end
    end
  end.

(** One turn of the loop of [FarmingGame.visit_shop], for a [choice]
    other than [exit]: the purchase of one seed. *)
Definition buy_seed (choice : string) (g : FarmingGame)
  : FarmingGame * outcome :=
  match crop_lookup choice with
  | Some info =>
    let price := seed_price info in
    if price <=? money g then
      let g1 := set_money g (money g - price) in
      let seed_name := seed_key choice in
      (set_inventory g1
         (<[seed_name := default 0 (inventory g1 !! seed_name) + 1]>
            (inventory g1)),
       Success)
    else (g, InsufficientFunds)
  | None => (g, UnknownCrop)
  end.

(** [FarmingGame.visit_shop] on the lines typed at its prompt: the loop
    ends at [exit]; a list that ends before it is a visit still waiting
    for input. *)
Fixpoint visit_shop (choices : list string) (g : FarmingGame)
  : FarmingGame * list outcome :=
  match choices with
  | [] => (g, [])
  | choice :: rest =>
    if String.eqb choice "exit" then (g, []) else
    let '(g1, o) := buy_seed choice g in
    let '(g2, os) := visit_shop rest g1 in
    (g2, o :: os)
  end.

(** ** The day advance and its random event *)

(** The randomness is passed in.  [chance] is the value of
    [random.random()], a double in [0, 1) and so a rational; the double
    literals it is compared with are taken at their exact values.
    [pick] feeds [random.choice], which on a sequence of length [n]
    returns the element at [pick mod n]. *)
Definition lit_0_15 : Q := 5404319552844595 # 36028797018963968.
Definition lit_0_30 : Q := 5404319552844595 # 18014398509481984.

(** [random.random()] returns the multiples of 2^-53 in [0, 1):
    [sample k] for [0 <= k < 2^53]. *)
Definition sample (k : Z) : Q := k # 9007199254740992.

Definition Qltb (x y : Q) : bool := negb (Qle_bool y x).

(** The loop body of the first phase of [advance_day]: a planted plot
    grows if it was watered and dries out; an empty plot is skipped. *)
Definition grow_plot (p : plot) : plot :=
  match crop p with
  | None => p
  | Some _ =>
    {| crop := crop p;
       growth_stage :=
         if watered p then growth_stage p + 1 else growth_stage p;
       watered := false |}
  end.

(** The filter of the comprehension [growing_plots]; [None] is the
    [KeyError] of [CROP_DATA[p['crop']]]. *)
Definition still_growing (p : plot) : option bool :=
  match crop p with
  | None => Some false
  | Some c =>
    match crop_lookup c with
    | None => None
    | Some info => Some (growth_stage p <? growth_time info)
    end
  end.

(** [growing_plots] holds references to plot dictionaries of
    [farm_plots], and the damage is written through such a reference.
    The plots of [farm_plots] are distinct objects, so a reference is
    kept as the position of its plot. *)
Fixpoint growing_from (i : nat) (ps : list plot) : option (list nat) :=
  match ps with
  | [] => Some []
  | p :: rest =>
    match still_growing p with
    | None => None
    | Some b =>
      match growing_from (S i) rest with
      | None => None
      | Some r => Some (if b then i :: r else r)
      end
    end
  end.

Definition growing_plots (g : FarmingGame) : option (list nat) :=
  growing_from 0 (farm_plots g).

Definition damage (p : plot) : plot :=
  {| crop := crop p;
     growth_stage := Z.max 0 (growth_stage p - 1);
     watered := watered p |}.

Definition rain_on (p : plot) : plot :=
  {| crop := crop p; growth_stage := growth_stage p; watered := true |}.

(** What [handle_random_event] did: a pest event with the position of
    the damaged plot if there was one, a rain, or a normal day;
    [EventKeyError] when the comprehension raised. *)
Inductive event :=
| Pest (target : option nat)
| Rain
| NormalDay
| EventKeyError.

(** [FarmingGame.handle_random_event]. *)
Definition handle_random_event (chance : Q) (pick : nat) (g : FarmingGame)
  : FarmingGame * event :=
  if Qltb chance lit_0_15 then
    match growing_plots g with
    | None => (g, EventKeyError)
    | Some [] => (g, Pest None)
    | Some (i0 :: gs) =>
      let i := nth (pick mod length (i0 :: gs)) (i0 :: gs) i0 in
      match farm_plots g !! i with
      | None => (g, Pest None) (* a position of [growing_plots] is in range *)
      | Some p =>
        (set_farm_plots g (<[i := damage p]> (farm_plots g)), Pest (Some i))
      end
    end
  else if Qltb chance lit_0_30 then
    (set_farm_plots g (map rain_on (farm_plots g)), Rain)
  else (g, NormalDay).

(** [FarmingGame.advance_day].  A [KeyError] of the random event leaves
    the method before the win check. *)
Definition advance_day (chance : Q) (pick : nat) (g : FarmingGame)
  : FarmingGame * event :=
  let g1 := set_day g (day g + 1) in
  let g2 := set_farm_plots g1 (map grow_plot (farm_plots g1)) in
  let '(g3, ev) := handle_random_event chance pick g2 in
  match ev with
  | EventKeyError => (g3, ev)
  | _ =>
    if GAME_GOAL <=? money g3 then (set_game_over g3 true, ev) else (g3, ev)
  end.

(** ** The main loop *)

(** One command of the menu of [run], with the input its handler reads. *)
Inductive action :=
| Plant (seed_to_plant : string) (plot_input : option Z)
| Water (plot_input : option Z)
| Harvest (plot_input : option Z)
| Shop (choices : list string)
| Inspect
| NextDay (chance : Q) (pick : nat)
| Quit
| Invalid.

(** The dispatch in the body of the loop: the state after the command. *)
Definition do_action (a : action) (g : FarmingGame) : FarmingGame :=
  match a with
  | Plant s i => fst (plant s i g)
  | Water i => fst (water i g)
  | Harvest i => fst (harvest i g)
  | Shop cs => fst (visit_shop cs g)
  | Inspect => g
  | NextDay c k => fst (advance_day c k g)
  | Quit => set_game_over g true
  | Invalid => g
  end.

(** A sequence of commands, one after the other. *)
Definition exec (acts : list action) (g : FarmingGame) : FarmingGame :=
  fold_left (fun g a => do_action a g) acts g.

(** [FarmingGame.run]: the commands are taken while [game_over] is
    false.  An uncaught [KeyError] would end the program; none is raised
    in play, where every planted crop is a key of [CROP_DATA]. *)
Fixpoint run (acts : list action) (g : FarmingGame) : FarmingGame :=
  match acts with
  | [] => g
  | a :: rest => if game_over g then g else run rest (do_action a g)
  end.

(** The states a game can be in: the initial one and those after any
    command, whatever was typed and whatever the random source gave. *)
Inductive reachable : FarmingGame -> Prop :=
| reach_init : reachable init
| reach_step g a : reachable g -> reachable (do_action a g).

(** * Basic facts *)

Lemma valid_plot_num_spec (plot_num : Z) (g : FarmingGame) :
  valid_plot_num plot_num g = true <->
  0 <= plot_num < Z.of_nat (length (farm_plots g)).
Proof. unfold valid_plot_num. rewrite andb_true_iff. lia. Qed.

Lemma string_length_append (s1 s2 : string) :
  String.length (String.append s1 s2)
  = (String.length s1 + String.length s2)%nat.
Proof. induction s1 as [|a s1 IH]; simpl; [reflexivity | now rewrite IH]. Qed.

(** Distinct crop names give distinct inventory keys. *)
Lemma seed_key_inj (c1 c2 : string) : seed_key c1 = seed_key c2 -> c1 = c2.
Proof.
  unfold seed_key. revert c2.
  induction c1 as [|a c1 IH]; intros [|b c2] H; simpl in H.
  - reflexivity.
  - apply (f_equal String.length) in H. simpl in H.
    rewrite string_length_append in H. simpl in H. lia.
  - apply (f_equal String.length) in H. simpl in H.
    rewrite string_length_append in H. simpl in H. lia.
  - injection H as -> H. f_equal. now apply IH.
Qed.

Lemma reachable_exec (acts : list action) (g : FarmingGame) :
  reachable g -> reachable (exec acts g).
Proof.
  revert g. induction acts as [|a acts IH]; intros g Hg; simpl.
  - exact Hg.
  - apply IH. now apply reach_step.
Qed.

(** The states of [run] are among the reachable ones. *)
Lemma reachable_run (acts : list action) (g : FarmingGame) :
  reachable g -> reachable (run acts g).
Proof.
  revert g. induction acts as [|a acts IH]; intros g Hg; simpl.
  - exact Hg.
  - destruct (game_over g); [exact Hg |]. apply IH. now apply reach_step.
Qed.

(** * The invariant of the reachable states *)

Definition known_crop (p : plot) : Prop :=
  forall c, crop p = Some c -> is_Some (crop_lookup c).

(** A plot on day [d]: it grew at most once per day elapsed, never below
    zero, and what grows on it is a crop of [CROP_DATA]. *)
Definition plot_ok (d : Z) (p : plot) : Prop :=
  0 <= growth_stage p <= d - 1 /\ known_crop p.

(** The inventory holds no zero entry, and only seeds of [CROP_DATA]. *)
Definition inventory_ok (inv : gmap string Z) : Prop :=
  forall k n, inv !! k = Some n ->
    1 <= n /\ exists c, k = seed_key c /\ is_Some (crop_lookup c).

Record game_inv (g : FarmingGame) : Prop := {
  inv_money : 0 <= money g;
  inv_day : 1 <= day g;
  inv_count : length (farm_plots g) = INITIAL_PLOTS;
  inv_plots : Forall (plot_ok (day g)) (farm_plots g);
  inv_inventory : inventory_ok (inventory g)
}.

Lemma crop_prices (c : string) (info : crop_info) :
  crop_lookup c = Some info ->
  1 <= growth_time info /\ 0 <= seed_price info /\ 0 <= sell_price info.
Proof.
  unfold crop_lookup, CROP_DATA. simpl.
  repeat case_match; intros Hinfo; simplify_eq; simpl; lia.
Qed.

Lemma init_inv : game_inv init.
Proof.
  split; unfold init; cbn [money day farm_plots inventory].
  - unfold INITIAL_MONEY. lia.
  - lia.
  - apply length_replicate.
  - apply Forall_replicate. split; simpl; [lia | intros c Hc; discriminate].
  - intros k n H.
    apply lookup_insert_Some in H as [[<- <-] | [_ H1]].
    { split; [lia |]. exists "potato".
      split; [reflexivity | eexists; reflexivity]. }
    apply lookup_insert_Some in H1 as [[<- <-] | [_ H2]].
    { split; [lia |]. exists "wheat".
      split; [reflexivity | eexists; reflexivity]. }
    rewrite lookup_empty in H2. discriminate.
Qed.

Lemma plant_inv (s : string) (i : option Z) (g : FarmingGame) :
  game_inv g -> game_inv (fst (plant s i g)).
Proof.
  intros Hinv. unfold plant.
  destruct (inventory g !! seed_key s) as [n|] eqn:En; [| exact Hinv].
  destruct (n =? 0) eqn:E0; [exact Hinv |].
  destruct i as [typed|]; [| exact Hinv].
  destruct (negb (valid_plot_num (typed - 1) g)); [exact Hinv |].
  destruct (farm_plots g !! Z.to_nat (typed - 1)) as [p|]; [| exact Hinv].
  destruct (crop p); [exact Hinv |].
  destruct Hinv as [Hm Hd Hc Hp Hi].
  destruct (Hi _ _ En) as [Hn [c [Hk Hknown]]].
  apply seed_key_inj in Hk. subst c.
  assert (Hplots : Forall (plot_ok (day g))
            (<[Z.to_nat (typed - 1) :=
                 {| crop := Some s; growth_stage := 0; watered := false |}]>
               (farm_plots g))).
  { apply Forall_insert; [exact Hp |].
    split; simpl; [lia |]. intros c Hc'. simpl in Hc'.
    injection Hc' as <-. exact Hknown. }
  destruct (n - 1 =? 0) eqn:E1; split; simpl; try assumption.
  - now rewrite length_insert.
  - intros k m H. apply lookup_delete_Some in H as [Hne H1].
    rewrite lookup_insert_ne in H1 by assumption. eauto.
  - now rewrite length_insert.
  - intros k m H. apply lookup_insert_Some in H as [[<- <-] | [_ H1]]; [| eauto].
    split; [lia |]. eauto.
Qed.

Lemma water_inv (i : option Z) (g : FarmingGame) :
  game_inv g -> game_inv (fst (water i g)).
Proof.
  intros Hinv. unfold water.
  destruct i as [typed|]; [| exact Hinv].
  destruct (negb (valid_plot_num (typed - 1) g)); [exact Hinv |].
  destruct (farm_plots g !! Z.to_nat (typed - 1)) as [p|] eqn:Ep;
    [| exact Hinv].
  destruct (crop p) as [c|] eqn:Ec; [| exact Hinv].
  destruct Hinv as [Hm Hd Hc Hp Hi].
  split; simpl; try assumption.
  - now rewrite length_insert.
  - apply Forall_insert; [exact Hp |].
    destruct (Forall_lookup_1 _ _ _ _ Hp Ep) as [Hs Hk].
    split; simpl; [exact Hs |].
    intros c' Hc'. simpl in Hc'. apply Hk. congruence.
Qed.

Lemma harvest_inv (i : option Z) (g : FarmingGame) :
  game_inv g -> game_inv (fst (harvest i g)).
Proof.
  intros Hinv. unfold harvest.
  destruct i as [typed|]; [| exact Hinv].
  destruct (negb (valid_plot_num (typed - 1) g)); [exact Hinv |].
  destruct (farm_plots g !! Z.to_nat (typed - 1)) as [p|] eqn:Ep;
    [| exact Hinv].
  destruct (crop p) as [c|] eqn:Ec; [| exact Hinv].
  destruct (crop_lookup c) as [info|] eqn:Einfo; [| exact Hinv].
  destruct (growth_stage p <? growth_time info); [exact Hinv |].
  destruct Hinv as [Hm Hd Hc Hp Hi].
  apply crop_prices in Einfo.
  split; simpl; try assumption.
  - lia.
  - now rewrite length_insert.
  - apply Forall_insert; [exact Hp |].
    split; simpl; [lia | intros c' Hc'; discriminate].
Qed.

Lemma buy_seed_inv (choice : string) (g : FarmingGame) :
  game_inv g -> game_inv (fst (buy_seed choice g)).
Proof.
  intros Hinv. unfold buy_seed.
  destruct (crop_lookup choice) as [info|] eqn:Einfo; [| exact Hinv].
  destruct (seed_price info <=? money g) eqn:Eprice; [| exact Hinv].
  destruct Hinv as [Hm Hd Hc Hp Hi].
  apply Z.leb_le in Eprice.
  split; simpl; try assumption.
  - lia.
  - intros k n H.
    apply lookup_insert_Some in H as [[<- <-] | [_ H1]]; [| eauto].
    split; [| eauto].
    destruct (inventory g !! seed_key choice) as [m|] eqn:Em; simpl; [| lia].
    destruct (Hi _ _ Em) as [Hge _]. lia.
Qed.

Lemma visit_shop_inv (choices : list string) (g : FarmingGame) :
  game_inv g -> game_inv (fst (visit_shop choices g)).
Proof.
  revert g. induction choices as [|choice rest IH]; intros g Hinv; simpl.
  - exact Hinv.
  - destruct (String.eqb choice "exit"); [exact Hinv |].
    pose proof (buy_seed_inv choice g Hinv) as H1.
    destruct (buy_seed choice g) as [g1 o]. simpl in H1.
    specialize (IH g1 H1).
    destruct (visit_shop rest g1) as [g2 os]. exact IH.
Qed.

Lemma grow_plot_ok (d : Z) (p : plot) :
  plot_ok d p -> plot_ok (d + 1) (grow_plot p).
Proof.
  intros [Hs Hk]. unfold grow_plot.
  destruct (crop p) as [c|] eqn:Ec.
  - split; simpl.
    + destruct (watered p); lia.
    + intros c' Hc'. simpl in Hc'. apply Hk. congruence.
  - split; [lia |]. intros c' Hc'. congruence.
Qed.

Lemma damage_ok (d : Z) (p : plot) : plot_ok d p -> plot_ok d (damage p).
Proof.
  intros [Hs Hk]. split; simpl; [lia |].
  intros c Hc. apply Hk. exact Hc.
Qed.

Lemma rain_on_ok (d : Z) (p : plot) : plot_ok d p -> plot_ok d (rain_on p).
Proof.
  intros [Hs Hk]. split; simpl; [lia |].
  intros c Hc. apply Hk. exact Hc.
Qed.

Lemma handle_random_event_inv (chance : Q) (pick : nat) (g : FarmingGame) :
  game_inv g -> game_inv (fst (handle_random_event chance pick g)).
Proof.
  intros Hinv. unfold handle_random_event.
  destruct (Qltb chance lit_0_15).
  - destruct (growing_plots g) as [[|i0 gs]|]; try exact Hinv.
    destruct (farm_plots g !! _) as [p|] eqn:Ep; [| exact Hinv].
    destruct Hinv as [Hm Hd Hc Hp Hi].
    split; simpl; try assumption.
    + now rewrite length_insert.
    + apply Forall_insert; [exact Hp |].
      apply damage_ok. exact (Forall_lookup_1 _ _ _ _ Hp Ep).
  - destruct (Qltb chance lit_0_30); [| exact Hinv].
    destruct Hinv as [Hm Hd Hc Hp Hi].
    split; simpl; try assumption.
    + now rewrite length_map.
    + apply Forall_map. eapply Forall_impl; [exact Hp |].
      intros p. apply rain_on_ok.
Qed.

Lemma advance_day_inv (chance : Q) (pick : nat) (g : FarmingGame) :
  game_inv g -> game_inv (fst (advance_day chance pick g)).
Proof.
  intros [Hm Hd Hc Hp Hi]. unfold advance_day.
  assert (H2 : game_inv
            (set_farm_plots (set_day g (day g + 1))
               (map grow_plot (farm_plots (set_day g (day g + 1)))))).
  { split; simpl; try assumption.
    - lia.
    - now rewrite length_map.
    - apply Forall_map. eapply Forall_impl; [exact Hp |].
      intros p. apply grow_plot_ok. }
  apply (handle_random_event_inv chance pick) in H2.
  destruct (handle_random_event chance pick _) as [g3 ev]. simpl in H2.
  assert (H3 : game_inv (set_game_over g3 true)).
  { destruct H2. split; simpl; assumption. }
  destruct ev; try exact H2; destruct (GAME_GOAL <=? money g3); assumption.
Qed.

Lemma do_action_inv (a : action) (g : FarmingGame) :
  game_inv g -> game_inv (do_action a g).
Proof.
  intros Hinv. destruct a; simpl.
  - now apply plant_inv.
  - now apply water_inv.
  - now apply harvest_inv.
  - now apply visit_shop_inv.
  - exact Hinv.
  - now apply advance_day_inv.
  - destruct Hinv. split; simpl; assumption.
  - exact Hinv.
Qed.

(** Every reachable state satisfies the invariant. *)
Lemma reachable_inv (g : FarmingGame) : reachable g -> game_inv g.
Proof.
  induction 1 as [|g a _ IH]; [exact init_inv | now apply do_action_inv].
Qed.

(** * The thresholds of the random event *)

Lemma Qltb_lt (x y : Q) : Qltb x y = true <-> (x < y)%Q.
Proof.
  unfold Qltb. rewrite negb_true_iff. split.
  - intros H. apply Qnot_le_lt. intros Hle.
    apply Qle_bool_iff in Hle. congruence.
  - intros H. destruct (Qle_bool y x) eqn:E; [| reflexivity].
    apply Qle_bool_iff in E. now apply Qlt_not_le in H.
Qed.

Lemma Qltb_ge (x y : Q) : Qltb x y = false <-> (y <= x)%Q.
Proof.
  unfold Qltb. rewrite negb_false_iff. apply Qle_bool_iff.
Qed.

(** On the values of [random.random()] the comparisons with the double
    literals agree with the comparisons with the decimals 0.15 and
    0.30. *)
Lemma sample_lt_0_15 (k : Z) : (sample k < lit_0_15 <-> sample k < 0.15)%Q.
Proof. unfold sample, lit_0_15, Qlt. simpl. lia. Qed.

Lemma sample_lt_0_30 (k : Z) : (sample k < lit_0_30 <-> sample k < 0.30)%Q.
Proof. unfold sample, lit_0_30, Qlt. simpl. lia. Qed.

Lemma sample_pest (k : Z) :
  Qltb (sample k) lit_0_15 = true <-> (sample k < 0.15)%Q.
Proof. rewrite Qltb_lt. apply sample_lt_0_15. Qed.

Lemma sample_not_pest (k : Z) :
  Qltb (sample k) lit_0_15 = false <-> (0.15 <= sample k)%Q.
Proof.
  rewrite Qltb_ge. split; intros H.
  - apply Qnot_lt_le. intros Hlt. apply sample_lt_0_15 in Hlt.
    now apply Qlt_not_le in Hlt.
  - apply Qnot_lt_le. intros Hlt. apply sample_lt_0_15 in Hlt.
    now apply Qlt_not_le in Hlt.
Qed.

Lemma sample_below_0_30 (k : Z) :
  Qltb (sample k) lit_0_30 = true <-> (sample k < 0.30)%Q.
Proof. rewrite Qltb_lt. apply sample_lt_0_30. Qed.

Lemma sample_normal (k : Z) :
  Qltb (sample k) lit_0_30 = false <-> (0.30 <= sample k)%Q.
Proof.
  rewrite Qltb_ge. split; intros H.
  - apply Qnot_lt_le. intros Hlt. apply sample_lt_0_30 in Hlt.
    now apply Qlt_not_le in Hlt.
  - apply Qnot_lt_le. intros Hlt. apply sample_lt_0_30 in Hlt.
    now apply Qlt_not_le in Hlt.
Qed.

(** From 0.30 on nothing happens. *)
Lemma handle_random_event_normal (k : Z) (pick : nat) (g : FarmingGame) :
  (0.30 <= sample k)%Q ->
  handle_random_event (sample k) pick g = (g, NormalDay).
Proof.
  intros H. unfold handle_random_event.
  assert (H15 : Qltb (sample k) lit_0_15 = false).
  { apply sample_not_pest. eapply Qle_trans; [| exact H]. discriminate. }
  apply sample_normal in H. now rewrite H15, H.
Qed.

(** * The initial state *)

(** C10.  The state built by [__init__] has day 1, a balance of 100, four
    plots that are all empty with growth stage 0 and not watered,
    [game_over] false, and an inventory that is not empty: it holds
    exactly 5 wheat seeds and 5 potato seeds. *)
Theorem init_state :
  day init = 1 /\ money init = 100 /\
  farm_plots init = [empty_plot; empty_plot; empty_plot; empty_plot] /\
  crop empty_plot = None /\ growth_stage empty_plot = 0 /\
  watered empty_plot = false /\
  game_over init = false /\
  inventory init <> ∅ /\
  inventory init !! "wheat seeds" = Some 5 /\
  inventory init !! "potato seeds" = Some 5 /\
  dom (inventory init) = {["wheat seeds"; "potato seeds"]}.
Proof.
  split; [reflexivity |]. split; [reflexivity |].
  split; [reflexivity |]. split; [reflexivity |].
  split; [reflexivity |]. split; [reflexivity |].
  split; [reflexivity |]. split.
  { intros H. apply (f_equal (fun m => m !! "wheat seeds")) in H.
    rewrite lookup_empty in H. discriminate. }
  split; [reflexivity |]. split; [reflexivity |].
  unfold init; cbn [inventory]. rewrite !dom_insert_L, dom_empty_L.
  set_solver.
Qed.

(** * Invariants of play *)

(** A day on which [random.random()] returned 0.5. *)
Definition a_normal_day : action := NextDay (sample 4503599627370496) 0.

(** Wheat is planted in the first plot, then watered and left to grow
    for five days, one day more than it needs. *)
Definition overgrown : FarmingGame :=
  exec [Plant "wheat" (Some 1);
        Water (Some 1); a_normal_day;
        Water (Some 1); a_normal_day;
        Water (Some 1); a_normal_day;
        Water (Some 1); a_normal_day;
        Water (Some 1); a_normal_day] init.

(** The bound of progress the plots are said to keep: between 0 and the
    growth time of the crop. *)
Definition progress_within_duration (g : FarmingGame) : Prop :=
  forall i p c info,
    farm_plots g !! i = Some p -> crop p = Some c ->
    crop_lookup c = Some info ->
    0 <= growth_stage p <= growth_time info.

(** C1, as stated, fails: a ready plot that is watered grows on, and
    after five watered days the wheat is at stage 5 of 4. *)
Lemma overgrown_exceeds_duration :
  reachable overgrown /\ ~ progress_within_duration overgrown.
Proof.
  split.
  - apply reachable_exec, reach_init.
  - intros H.
    specialize (H 0%nat
      {| crop := Some "wheat"; growth_stage := 5; watered := false |}
      "wheat" {| growth_time := 4; seed_price := 10; sell_price := 25 |}).
    assert (H' : 0 <= 5 <= 4) by (apply H; vm_compute; reflexivity).
    lia.
Qed.

(** C1, amended.  In every reachable state a planted plot holds a crop
    of [CROP_DATA] and its growth stage is at least 0 and at most the
    number of days elapsed; the growth time of the crop is no bound. *)
Theorem progress_bounded_by_days (g : FarmingGame) (i : nat) (p : plot)
    (c : string) :
  reachable g -> farm_plots g !! i = Some p -> crop p = Some c ->
  is_Some (crop_lookup c) /\ 0 <= growth_stage p <= day g - 1.
Proof.
  intros Hr Hp Hc. apply reachable_inv in Hr.
  destruct (Forall_lookup_1 _ _ _ _ (inv_plots g Hr) Hp) as [Hs Hk].
  split; [now apply Hk | exact Hs].
Qed.

Lemma progress_bounded_by_days_overgrown :
  is_Some (crop_lookup "wheat") /\ 0 <= 5 <= day overgrown - 1.
Proof.
  apply (progress_bounded_by_days overgrown 0
           {| crop := Some "wheat"; growth_stage := 5; watered := false |}
           "wheat").
  - apply reachable_exec, reach_init.
  - vm_compute. reflexivity.
  - reflexivity.
Defined.

(** C9.  In every reachable state the balance is not negative. *)
Theorem balance_never_negative (g : FarmingGame) :
  reachable g -> 0 <= money g.
Proof. intros Hr. apply reachable_inv in Hr. apply (inv_money g Hr). Qed.

Lemma balance_never_negative_after_shopping :
  0 <= money (exec [Shop ["corn"; "corn"; "corn"; "corn"; "corn"; "corn";
                          "corn"; "exit"]] init).
Proof.
  apply balance_never_negative. apply reachable_exec, reach_init.
Defined.

(** * A first harvest *)

Lemma advance_day_normal (k : Z) (pick : nat) (g : FarmingGame) :
  (0.30 <= sample k)%Q ->
  advance_day (sample k) pick g =
  (let g2 := set_farm_plots (set_day g (day g + 1))
               (map grow_plot (farm_plots g)) in
   if GAME_GOAL <=? money g then set_game_over g2 true else g2, NormalDay).
Proof.
  intros H. unfold advance_day.
  rewrite handle_random_event_normal by exact H.
  cbn [set_farm_plots set_day money farm_plots].
  now destruct (GAME_GOAL <=? money g).
Qed.

(** The first plot is watered, and the night passes. *)
Definition water_and_advance (chance : Q) (pick : nat) (g : FarmingGame)
  : FarmingGame :=
  fst (advance_day chance pick (fst (water (Some 1) g))).

Definition wheat_at (stage : Z) (wet : bool) : plot :=
  {| crop := Some "wheat"; growth_stage := stage; watered := wet |}.

(** The scenario of a first harvest: from the initial state a wheat seed
    is bought, planted in the first plot, and watered on each of four
    days on which [random.random()] gives [sample k1] .. [sample k4];
    then the wheat is harvested.  [after_buy] and [after_plant] are the
    inventories expected after the purchase and after the planting. *)
Definition first_harvest (after_buy after_plant : gmap string Z)
    (k1 k2 k3 k4 : Z) (pick : nat) : Prop :=
  let bought := fst (buy_seed "wheat" init) in
  let planted := fst (plant "wheat" (Some 1) bought) in
  let wet := fst (water (Some 1) planted) in
  let day2 := fst (advance_day (sample k1) pick wet) in
  let day5 :=
    water_and_advance (sample k4) pick
      (water_and_advance (sample k3) pick
         (water_and_advance (sample k2) pick day2)) in
  let sold := fst (harvest (Some 1) day5) in
  money init = 100 /\
  snd (buy_seed "wheat" init) = Success /\
  money bought = 90 /\ inventory bought = after_buy /\
  snd (plant "wheat" (Some 1) bought) = Success /\
  farm_plots planted !! 0%nat = Some (wheat_at 0 false) /\
  inventory planted = after_plant /\
  farm_plots wet !! 0%nat = Some (wheat_at 0 true) /\
  farm_plots day2 !! 0%nat = Some (wheat_at 1 false) /\
  farm_plots day5 !! 0%nat = Some (wheat_at 4 false) /\
  snd (harvest (Some 1) day5) = Success /\
  money sold = 115 /\ farm_plots sold !! 0%nat = Some empty_plot.

(** The value 0.5 of [random.random()]. *)
Definition half : Z := 4503599627370496.

(** C3, as stated, fails: the game starts with seeds in store, so the
    purchase does not leave one wheat seed, nor the planting none. *)
Lemma first_harvest_not_from_empty_store :
  ~ first_harvest {["wheat seeds" := 1]} ∅ half half half half 0.
Proof.
  unfold first_harvest. cbv zeta.
  intros (_ & _ & _ & H & _).
  apply (f_equal (fun m => m !! "potato seeds")) in H.
  vm_compute in H. discriminate.
Qed.

(** C3, amended.  From the initial state (balance 100, 5 wheat and 5
    potato seeds): buying a wheat seed leaves 90 and 6 wheat seeds with
    the 5 potato seeds; planting wheat in the first plot makes it wheat at
    stage 0, not watered, and leaves 5 wheat and 5 potato seeds;
    watering sets the flag; a day without event brings stage 1 and
    clears the flag; three more watered days bring stage 4; the harvest
    pays 25, for a balance of 115, and empties the plot. *)
Theorem first_harvest_scenario (k1 k2 k3 k4 : Z) (pick : nat) :
  (0.30 <= sample k1)%Q -> (0.30 <= sample k2)%Q ->
  (0.30 <= sample k3)%Q -> (0.30 <= sample k4)%Q ->
  first_harvest
    (<["wheat seeds" := 6]> (<["potato seeds" := 5]> ∅))
    (<["wheat seeds" := 5]> (<["potato seeds" := 5]> ∅))
    k1 k2 k3 k4 pick.
Proof.
  intros H1 H2 H3 H4. unfold first_harvest, water_and_advance. cbv zeta.
  rewrite (advance_day_normal k1), (advance_day_normal k2),
    (advance_day_normal k3), (advance_day_normal k4) by assumption.
  repeat (split; [vm_compute; reflexivity |]). vm_compute; reflexivity.
Qed.

Lemma first_harvest_scenario_half :
  first_harvest
    (<["wheat seeds" := 6]> (<["potato seeds" := 5]> ∅))
    (<["wheat seeds" := 5]> (<["potato seeds" := 5]> ∅))
    half half half half 0.
Proof.
  apply first_harvest_scenario; vm_compute; discriminate.
Defined.

(** * The player operations *)

(** The harvest is said to be refused whenever the growth stage differs
    from the growth time. *)
Definition harvest_only_at_duration (g : FarmingGame) : Prop :=
  forall (i : nat) p c info,
    farm_plots g !! i = Some p -> crop p = Some c ->
    crop_lookup c = Some info ->
    growth_stage p <> growth_time info ->
    snd (harvest (Some (Z.of_nat i + 1)) g) = NotReady.

(** C5, as stated, fails: wheat at stage 5 of 4 is harvested. *)
Lemma overgrown_is_harvested :
  reachable overgrown /\ ~ harvest_only_at_duration overgrown.
Proof.
  split.
  - apply reachable_exec, reach_init.
  - intros H.
    specialize (H 0%nat (wheat_at 5 false) "wheat"
      {| growth_time := 4; seed_price := 10; sell_price := 25 |}).
    assert (H' : snd (harvest (Some 1) overgrown) = NotReady).
    { apply H; vm_compute; congruence. }
    vm_compute in H'. discriminate.
Qed.

(** C5, amended.  At a plot index in range, the harvest of a planted
    plot whose growth stage is at least the growth time of its crop
    succeeds: the balance grows by the sale price of the crop and the
    plot is reset to empty, stage 0, not watered, nothing else changing;
    the harvest of one whose growth stage is below the growth time is
    refused as not ready. *)
Theorem harvest_ready (g : FarmingGame) (i : nat) (p : plot) (c : string)
    (info : crop_info) :
  farm_plots g !! i = Some p -> crop p = Some c ->
  crop_lookup c = Some info ->
  (growth_time info <= growth_stage p ->
   harvest (Some (Z.of_nat i + 1)) g =
   ({| money := money g + sell_price info; day := day g;
       farm_plots := <[i := empty_plot]> (farm_plots g);
       inventory := inventory g; game_over := game_over g |}, Success)) /\
  (growth_stage p < growth_time info ->
   harvest (Some (Z.of_nat i + 1)) g = (g, NotReady)).
Proof.
  intros Hp Hc Hinfo. unfold harvest.
  replace (Z.of_nat i + 1 - 1) with (Z.of_nat i) by lia.
  assert (Hv : valid_plot_num (Z.of_nat i) g = true).
  { apply valid_plot_num_spec. apply lookup_lt_Some in Hp. lia. }
  rewrite Hv, Nat2Z.id, Hp, Hc, Hinfo. simpl.
  split; intros H.
  - apply Z.ltb_ge in H. rewrite H. reflexivity.
  - apply Z.ltb_lt in H. rewrite H. reflexivity.
Qed.

Lemma harvest_ready_overgrown :
  harvest (Some (Z.of_nat 0 + 1)) overgrown =
  ({| money := money overgrown + 25; day := day overgrown;
      farm_plots := <[0%nat := empty_plot]> (farm_plots overgrown);
      inventory := inventory overgrown;
      game_over := game_over overgrown |}, Success).
Proof.
  apply (harvest_ready overgrown 0 (wheat_at 5 false) "wheat"
           {| growth_time := 4; seed_price := 10; sell_price := 25 |}).
  - vm_compute. reflexivity.
  - reflexivity.
  - reflexivity.
  - vm_compute. discriminate.
Defined.

(** C6.  With [held] seeds of the kind in the inventory (a count that
    is not negative, none when there is no entry), [plant] checks in
    this order: fewer than one seed held is refused as insufficient
    inventory, whatever the plot; otherwise a plot index out of range is
    refused as invalid; otherwise a plot that is planted is refused as
    occupied.  When all three pass, the plot holds the crop at stage 0,
    not watered, and the inventory holds one seed less, its entry being
    deleted when that was the last one; nothing else changes. *)
Theorem plant_checks_in_order (g : FarmingGame) (seed : string)
    (plot_num : Z) :
  let held := default 0 (inventory g !! seed_key seed) in
  0 <= held ->
  (held < 1 ->
   forall input, plant seed input g = (g, InsufficientInventory)) /\
  (1 <= held ->
   ~ (0 <= plot_num < Z.of_nat (length (farm_plots g))) ->
   plant seed (Some (plot_num + 1)) g = (g, InvalidPlotIndex)) /\
  (1 <= held ->
   forall p, 0 <= plot_num ->
   farm_plots g !! Z.to_nat plot_num = Some p ->
   (crop p <> None ->
    plant seed (Some (plot_num + 1)) g = (g, PlotOccupied)) /\
   (crop p = None ->
    plant seed (Some (plot_num + 1)) g =
    ({| money := money g; day := day g;
        farm_plots :=
          <[Z.to_nat plot_num :=
              {| crop := Some seed; growth_stage := 0; watered := false |}]>
            (farm_plots g);
        inventory :=
          if held =? 1 then delete (seed_key seed) (inventory g)
          else <[seed_key seed := held - 1]> (inventory g);
        game_over := game_over g |}, Success))).
Proof.
  intros held Hheld. subst held. unfold plant.
  replace (plot_num + 1 - 1) with plot_num by lia.
  destruct (inventory g !! seed_key seed) as [n|] eqn:En; simpl in *.
  2:{ split; [reflexivity |]. split; intros; lia. }
  split; [| split].
  - intros Hlt input. assert (n = 0) as -> by lia. reflexivity.
  - intros Hge Hout. destruct (n =? 0) eqn:E0; [lia |].
    destruct (valid_plot_num plot_num g) eqn:Hv; [| reflexivity].
    apply valid_plot_num_spec in Hv. contradiction.
  - intros Hge p Hpos Hp. destruct (n =? 0) eqn:E0; [lia |].
    assert (Hv : valid_plot_num plot_num g = true).
    { apply valid_plot_num_spec. apply lookup_lt_Some in Hp. lia. }
    rewrite Hv, Hp. simpl. split; intros Hc.
    + destruct (crop p); [reflexivity | contradiction].
    + rewrite Hc. unfold set_inventory, set_farm_plots. simpl.
      replace (n - 1 =? 0) with (n =? 1)
        by (destruct (Z.eqb_spec n 1), (Z.eqb_spec (n - 1) 0); lia).
      destruct (n =? 1); simpl; [| reflexivity].
      now rewrite delete_insert_eq.
Qed.

Lemma plant_checks_in_order_init :
  plant "wheat" (Some (4 + 1)) init = (init, InvalidPlotIndex).
Proof.
  apply (plant_checks_in_order init "wheat" 4).
  - vm_compute. discriminate.
  - vm_compute. discriminate.
  - vm_compute. intros [_ H]. discriminate H.
Defined.

(** C7.  Buying a seed of a kind that is no key of [CROP_DATA] is
    refused as unknown; of a kind that costs more than the balance, as
    insufficient funds; otherwise the balance goes down by exactly the
    seed price and the inventory count of the kind goes up by one, from
    0 when there was no entry, nothing else changing. *)
Theorem buy_seed_spec (g : FarmingGame) (choice : string) :
  (crop_lookup choice = None -> buy_seed choice g = (g, UnknownCrop)) /\
  (forall info, crop_lookup choice = Some info ->
   (money g < seed_price info ->
    buy_seed choice g = (g, InsufficientFunds)) /\
   (seed_price info <= money g ->
    buy_seed choice g =
    ({| money := money g - seed_price info; day := day g;
        farm_plots := farm_plots g;
        inventory :=
          <[seed_key choice :=
              default 0 (inventory g !! seed_key choice) + 1]>
            (inventory g);
        game_over := game_over g |}, Success))).
Proof.
  unfold buy_seed. split.
  - intros ->. reflexivity.
  - intros info ->. split; intros H.
    + apply Z.leb_gt in H. rewrite H. reflexivity.
    + apply Z.leb_le in H. rewrite H. reflexivity.
Qed.

Lemma buy_seed_spec_carrot :
  buy_seed "carrot" init =
  ({| money := money init - 8; day := day init;
      farm_plots := farm_plots init;
      inventory :=
        <[seed_key "carrot" :=
            default 0 (inventory init !! seed_key "carrot") + 1]>
          (inventory init);
      game_over := game_over init |}, Success).
Proof.
  apply (proj2 (buy_seed_spec init "carrot")
           {| growth_time := 3; seed_price := 8; sell_price := 20 |}).
  - reflexivity.
  - vm_compute. discriminate.
Defined.

(** C8.  An operation that does not report success leaves the whole
    state as it was: balance, day, plots, inventory and [game_over]. *)
Theorem failure_leaves_state (g : FarmingGame) :
  (forall seed input,
     snd (plant seed input g) <> Success -> fst (plant seed input g) = g) /\
  (forall input,
     snd (water input g) <> Success -> fst (water input g) = g) /\
  (forall input,
     snd (harvest input g) <> Success -> fst (harvest input g) = g) /\
  (forall choice,
     snd (buy_seed choice g) <> Success -> fst (buy_seed choice g) = g).
Proof.
  split; [| split; [| split]].
  - intros seed input. unfold plant.
    repeat case_match; simpl; congruence.
  - intros input. unfold water.
    repeat case_match; simpl; congruence.
  - intros input. unfold harvest.
    repeat case_match; simpl; congruence.
  - intros choice. unfold buy_seed.
    repeat case_match; simpl; congruence.
Qed.

(** A player with a balance of 3 cannot afford the wheat seed at 10. *)
Lemma failure_leaves_state_poor :
  snd (buy_seed "wheat" (set_money init 3)) = InsufficientFunds /\
  fst (buy_seed "wheat" (set_money init 3)) = set_money init 3.
Proof.
  split; [reflexivity |].
  apply (proj2 (proj2 (proj2 (failure_leaves_state (set_money init 3))))).
  vm_compute. discriminate.
Defined.

(** * The day advance *)

Lemma handle_random_event_day (chance : Q) (pick : nat) (g : FarmingGame) :
  day (fst (handle_random_event chance pick g)) = day g.
Proof.
  unfold handle_random_event. repeat case_match; reflexivity.
Qed.

Lemma advance_day_day (chance : Q) (pick : nat) (g : FarmingGame) :
  day (fst (advance_day chance pick g)) = day g + 1.
Proof.
  unfold advance_day.
  pose proof (handle_random_event_day chance pick
    (set_farm_plots (set_day g (day g + 1))
       (map grow_plot (farm_plots (set_day g (day g + 1)))))) as H.
  destruct (handle_random_event chance pick _) as [g3 ev].
  simpl in H. destruct ev; simpl; try exact H;
    destruct (GAME_GOAL <=? money g3); simpl; exact H.
Qed.

(** The wheat of the first plot is ready and has been watered again. *)
Definition ready_and_watered : FarmingGame :=
  exec [Plant "wheat" (Some 1);
        Water (Some 1); a_normal_day;
        Water (Some 1); a_normal_day;
        Water (Some 1); a_normal_day;
        Water (Some 1); a_normal_day;
        Water (Some 1)] init.

(** The day advance as it is said to be: one day more, a watered planted
    plot one stage further but never beyond the growth time of its crop,
    and every watered flag cleared. *)
Definition advance_day_capped (chance : Q) (pick : nat) (g : FarmingGame)
  : Prop :=
  let g' := fst (advance_day chance pick g) in
  day g' = day g + 1 /\
  (forall (i : nat) p c info,
     farm_plots g !! i = Some p -> crop p = Some c ->
     crop_lookup c = Some info ->
     exists p', farm_plots g' !! i = Some p' /\
       growth_stage p' =
       if watered p then Z.min (growth_stage p + 1) (growth_time info)
       else growth_stage p) /\
  (forall (i : nat) p', farm_plots g' !! i = Some p' -> watered p' = false).

(** C2, as stated, fails: on a day without event the ready, watered
    wheat goes from stage 4 to stage 5, past its growth time of 4. *)
Lemma ready_and_watered_grows_on :
  reachable ready_and_watered /\
  ~ advance_day_capped (sample half) 0 ready_and_watered.
Proof.
  split.
  - apply reachable_exec, reach_init.
  - intros (_ & H & _).
    destruct (H 0%nat (wheat_at 4 true) "wheat"
                {| growth_time := 4; seed_price := 10; sell_price := 25 |})
      as (p' & Hp' & Hs); try (vm_compute; reflexivity).
    vm_compute in Hp'. injection Hp' as <-. vm_compute in Hs. discriminate.
Qed.

(** * The random event *)

(** Every planted plot holds a crop of [CROP_DATA]: the comprehension of
    the pest event raises no [KeyError]. *)
Definition plot_known (p : plot) : bool :=
  match crop p with
  | None => true
  | Some c =>
    match crop_lookup c with
    | Some _ => true
    | None => false
    end
  end.

Definition crops_known (g : FarmingGame) : bool :=
  forallb plot_known (farm_plots g).

(** The plot at position [i] is planted and below the growth time of its
    crop. *)
Definition is_growing (g : FarmingGame) (i : nat) : Prop :=
  exists p c info,
    farm_plots g !! i = Some p /\ crop p = Some c /\
    crop_lookup c = Some info /\ growth_stage p < growth_time info.

Lemma still_growing_true (p : plot) :
  still_growing p = Some true <->
  exists c info, crop p = Some c /\ crop_lookup c = Some info /\
                 growth_stage p < growth_time info.
Proof.
  unfold still_growing. split.
  - destruct (crop p) as [c|]; [| discriminate].
    destruct (crop_lookup c) as [info|] eqn:Einfo; [| discriminate].
    intros H. injection H as H. apply Z.ltb_lt in H. eauto.
  - intros (c & info & -> & -> & H). apply Z.ltb_lt in H. now rewrite H.
Qed.

Lemma growing_from_known (ps : list plot) (i0 : nat) :
  forallb plot_known ps = true -> is_Some (growing_from i0 ps).
Proof.
  revert i0. induction ps as [|p ps IH]; intros i0 H; simpl.
  - eauto.
  - simpl in H. apply andb_true_iff in H as [Hp Hps].
    destruct (IH (S i0) Hps) as [r Hr]. rewrite Hr.
    unfold plot_known in Hp. unfold still_growing.
    destruct (crop p) as [c|]; [| eauto].
    destruct (crop_lookup c); [eauto | discriminate].
Qed.

Lemma growing_from_elem (ps : list plot) (i0 : nat) (gs : list nat) :
  growing_from i0 ps = Some gs ->
  forall i, i ∈ gs <->
    exists j p, i = (i0 + j)%nat /\ ps !! j = Some p /\
                still_growing p = Some true.
Proof.
  revert i0 gs. induction ps as [|p ps IH]; intros i0 gs H i; simpl in H.
  - injection H as <-. split; [intros Hin; inversion Hin |].
    intros (j & q & _ & Hq & _). rewrite lookup_nil in Hq. discriminate.
  - destruct (still_growing p) as [b|] eqn:Eb; [| discriminate].
    destruct (growing_from (S i0) ps) as [r|] eqn:Er; [| discriminate].
    injection H as <-. specialize (IH (S i0) r Er i).
    split.
    + intros Hin.
      assert (Hcase : (b = true /\ i = i0) \/ i ∈ r).
      { destruct b; [apply elem_of_cons in Hin as [-> | Hin] |]; auto. }
      destruct Hcase as [[-> ->] | Hr].
      * exists 0%nat, p. split; [lia | split; [reflexivity | exact Eb]].
      * apply IH in Hr as (j & q & -> & Hq & Hg).
        exists (S j), q. split; [lia | split; assumption].
    + intros (j & q & -> & Hq & Hg). destruct j as [|j]; simpl in Hq.
      * injection Hq as <-. rewrite Hg in Eb. injection Eb as <-.
        rewrite Nat.add_0_r. apply list_elem_of_here.
      * assert (Hr : (i0 + S j)%nat ∈ r).
        { apply IH. exists j, q. split; [lia | split; assumption]. }
        destruct b; [apply list_elem_of_further |]; exact Hr.
Qed.

Lemma growing_from_NoDup (ps : list plot) (i0 : nat) (gs : list nat) :
  growing_from i0 ps = Some gs -> NoDup gs.
Proof.
  revert i0 gs. induction ps as [|p ps IH]; intros i0 gs H; simpl in H.
  - injection H as <-. constructor.
  - destruct (still_growing p) as [b|]; [| discriminate].
    destruct (growing_from (S i0) ps) as [r|] eqn:Er; [| discriminate].
    injection H as <-. specialize (IH (S i0) r Er).
    destruct b; [| exact IH]. constructor; [| exact IH].
    intros Hin. apply (growing_from_elem _ _ _ Er) in Hin.
    destruct Hin as (j & q & Hj & _). lia.
Qed.

Lemma growing_plots_spec (g : FarmingGame) (gs : list nat) :
  growing_plots g = Some gs -> forall i, i ∈ gs <-> is_growing g i.
Proof.
  intros H i. unfold growing_plots in H.
  rewrite (growing_from_elem _ _ _ H i). unfold is_growing. split.
  - intros (j & p & -> & Hp & Hg). apply still_growing_true in Hg.
    destruct Hg as (c & info & Hc & Hinfo & Hlt).
    exists p, c, info. simpl. auto.
  - intros (p & c & info & Hp & Hc & Hinfo & Hlt).
    exists i, p. split; [reflexivity | split; [exact Hp |]].
    apply still_growing_true. eauto.
Qed.

Lemma growing_plots_known (g : FarmingGame) :
  crops_known g = true -> is_Some (growing_plots g).
Proof. apply growing_from_known. Qed.

(** In play the pest event never raises: what is planted was bought or
    was in the first store. *)
Lemma reachable_crops_known (g : FarmingGame) :
  reachable g -> crops_known g = true.
Proof.
  intros Hr. apply reachable_inv in Hr. pose proof (inv_plots g Hr) as Hp.
  unfold crops_known. induction Hp as [|p ps [_ Hk] _ IH]; [reflexivity |].
  simpl. rewrite IH, andb_true_r. unfold plot_known.
  destruct (crop p) as [c|] eqn:Ec; [| reflexivity].
  destruct (Hk c Ec) as [info ->]. reflexivity.
Qed.

(** In play the inventory holds no entry without a seed. *)
Lemma reachable_inventory_positive (g : FarmingGame) (k : string) (n : Z) :
  reachable g -> inventory g !! k = Some n -> 1 <= n.
Proof.
  intros Hr Hk. apply reachable_inv in Hr.
  now destruct (inv_inventory g Hr k n Hk).
Qed.

(** A farm with ready wheat, growing corn, an empty plot and a potato
    just planted. *)
Definition mixed_farm : FarmingGame :=
  set_farm_plots init
    [wheat_at 4 false;
     {| crop := Some "corn"; growth_stage := 2; watered := true |};
     empty_plot;
     {| crop := Some "potato"; growth_stage := 0; watered := false |}].

(** C4.  One sample of [random.random()] decides the event, and the
    three cases exclude each other and leave nothing out.  Below 0.15
    the pests come: [growing_plots] lists, once each, exactly the
    planted plots below the growth time of their crop; when there is
    none nothing changes; otherwise [random.choice] takes one of them,
    any of them for a suitable draw, and that plot alone loses one
    stage, not going below 0.  From 0.15 and below 0.30 it rains: every
    plot, planted or empty, is watered.  From 0.30 on nothing changes. *)
Theorem random_event_policy (k : Z) (pick : nat) (g : FarmingGame) :
  crops_known g = true ->
  let chance := sample k in
  let r := handle_random_event chance pick g in
  ((exists t, snd r = Pest t) <-> (chance < 0.15)%Q) /\
  (snd r = Rain <-> (0.15 <= chance)%Q /\ (chance < 0.30)%Q) /\
  (snd r = NormalDay <-> (0.30 <= chance)%Q) /\
  ((chance < 0.15)%Q ->
   exists gs, growing_plots g = Some gs /\ NoDup gs /\
     (forall i, i ∈ gs <-> is_growing g i) /\
     (forall i, i ∈ gs ->
        exists pick', gs !! (pick' mod length gs)%nat = Some i) /\
     (gs = [] -> r = (g, Pest None)) /\
     (gs <> [] ->
      exists i p, gs !! (pick mod length gs)%nat = Some i /\
        farm_plots g !! i = Some p /\
        r = (set_farm_plots g
               (<[i := {| crop := crop p;
                          growth_stage := Z.max 0 (growth_stage p - 1);
                          watered := watered p |}]> (farm_plots g)),
             Pest (Some i)))) /\
  ((0.15 <= chance)%Q -> (chance < 0.30)%Q ->
   r = (set_farm_plots g
          (map (fun p => {| crop := crop p; growth_stage := growth_stage p;
                            watered := true |}) (farm_plots g)), Rain)) /\
  ((0.30 <= chance)%Q -> r = (g, NormalDay)).
Proof.
  intros Hknown chance r.
  destruct (growing_plots_known g Hknown) as [gs Hgs].
  assert (Hpick : gs <> [] ->
            exists i p, gs !! (pick mod length gs)%nat = Some i /\
                        farm_plots g !! i = Some p).
  { intros Hne.
    assert (Hlt : (pick mod length gs < length gs)%nat).
    { apply Nat.mod_upper_bound. destruct gs; [congruence | simpl; lia]. }
    destruct (lookup_lt_is_Some_2 _ _ Hlt) as [i Hi].
    assert (Hin : i ∈ gs) by (apply list_elem_of_lookup; eauto).
    apply (growing_plots_spec g gs Hgs) in Hin.
    destruct Hin as (p & _ & _ & Hp & _). eauto. }
  assert (Hpest : Qltb chance lit_0_15 = true ->
            (gs = [] -> r = (g, Pest None)) /\
            (gs <> [] ->
             exists i p, gs !! (pick mod length gs)%nat = Some i /\
               farm_plots g !! i = Some p /\
               r = (set_farm_plots g (<[i := damage p]> (farm_plots g)),
                    Pest (Some i)))).
  { intros Hb. subst r. unfold handle_random_event. rewrite Hb, Hgs.
    split.
    - intros ->. reflexivity.
    - intros Hne. destruct (Hpick Hne) as (i & p & Hi & Hp).
      exists i, p. split; [exact Hi | split; [exact Hp |]].
      destruct gs as [|i0 gs']; [congruence |].
      rewrite nth_lookup, Hi. simpl. rewrite Hp. reflexivity. }
  assert (Hrain : Qltb chance lit_0_15 = false ->
            Qltb chance lit_0_30 = true ->
            r = (set_farm_plots g (map rain_on (farm_plots g)), Rain)).
  { intros H1 H2. subst r. unfold handle_random_event.
    now rewrite H1, H2. }
  assert (Hnone : Qltb chance lit_0_15 = false ->
            Qltb chance lit_0_30 = false -> r = (g, NormalDay)).
  { intros H1 H2. subst r. unfold handle_random_event.
    now rewrite H1, H2. }
  assert (Hle : (0.30 <= chance)%Q -> (0.15 <= chance)%Q).
  { intros H. eapply Qle_trans; [| exact H]. discriminate. }
  assert (Hlt : (chance < 0.15)%Q -> (chance < 0.30)%Q).
  { intros H. eapply Qlt_trans; [exact H | reflexivity]. }
  subst chance.
  destruct (Qltb (sample k) lit_0_15) eqn:E15.
  - (* pests *)
    pose proof (proj1 (sample_pest k) E15) as Hc.
    destruct (Hpest eq_refl) as [Hnil Hcons].
    assert (Htag : exists t, snd r = Pest t).
    { destruct gs as [|i0 gs'].
      - rewrite Hnil by reflexivity. eauto.
      - destruct Hcons as (i & p & _ & _ & ->); [discriminate |]. eauto. }
    split; [tauto |].
    split.
    { split.
      - intros Hr. destruct Htag as [t Ht]. congruence.
      - intros [H1 _]. now apply Qlt_not_le in Hc. }
    split.
    { split.
      - intros Hr. destruct Htag as [t Ht]. congruence.
      - intros H1. apply Hle in H1. now apply Qlt_not_le in Hc. }
    split.
    { intros _. exists gs. split; [exact Hgs |].
      split; [exact (growing_from_NoDup _ _ _ Hgs) |].
      split; [exact (growing_plots_spec g gs Hgs) |].
      split.
      { intros i Hin. apply list_elem_of_lookup in Hin as [j Hj].
        exists j. rewrite Nat.mod_small; [exact Hj |].
        eapply lookup_lt_Some. exact Hj. }
      split; [exact Hnil | exact Hcons]. }
    split.
    { intros H1. now apply Qlt_not_le in Hc. }
    intros H1. apply Hle in H1. now apply Qlt_not_le in Hc.
  - pose proof (proj1 (sample_not_pest k) E15) as Hc.
    destruct (Qltb (sample k) lit_0_30) eqn:E30.
    + (* rain *)
      pose proof (proj1 (sample_below_0_30 k) E30) as Hc'.
      rewrite (Hrain eq_refl eq_refl). simpl.
      split.
      { split; [intros [t Ht]; discriminate |].
        intros H. now apply Qlt_not_le in H. }
      split; [tauto |].
      split.
      { split; [discriminate |].
        intros H. now apply Qlt_not_le in Hc'. }
      split; [intros H; now apply Qlt_not_le in H |].
      split; [reflexivity |].
      intros H. now apply Qlt_not_le in Hc'.
    + (* a normal day *)
      pose proof (proj1 (sample_normal k) E30) as Hc'.
      rewrite (Hnone eq_refl eq_refl). simpl.
      split.
      { split; [intros [t Ht]; discriminate |].
        intros H. now apply Qlt_not_le in H. }
      split.
      { split; [discriminate |].
        intros [_ H]. now apply Qlt_not_le in H. }
      split; [tauto |].
      split; [intros H; now apply Qlt_not_le in H |].
      split; [intros _ H; now apply Qlt_not_le in H |].
      reflexivity.
Qed.

(** On the mixed farm a sample just below 0.05 brings the pests. *)
Lemma random_event_policy_mixed_farm :
  (exists t,
     snd (handle_random_event (sample 450359962737049) 1 mixed_farm)
     = Pest t) <->
  (sample 450359962737049 < 0.15)%Q.
Proof.
  exact (proj1 (random_event_policy 450359962737049 1 mixed_farm eq_refl)).
Defined.

(** The second of its two growing plots is drawn, the potato that was
    just planted: it stays at stage 0. *)
Example pests_on_mixed_farm :
  handle_random_event (sample 450359962737049) 1 mixed_farm
  = (mixed_farm, Pest (Some 3%nat)).
Proof. vm_compute. reflexivity. Qed.

(** With the first one drawn the corn falls back from stage 2 to 1. *)
Example pests_on_the_corn :
  farm_plots (fst (handle_random_event (sample 450359962737049) 0 mixed_farm))
  !! 1%nat
  = Some {| crop := Some "corn"; growth_stage := 1; watered := true |}.
Proof. vm_compute. reflexivity. Qed.

(** A sample just below 0.20 brings rain on every plot, the empty one
    too. *)
Example rain_on_mixed_farm :
  farm_plots (fst (handle_random_event (sample 1801439850948198) 0 mixed_farm))
  = [wheat_at 4 true;
     {| crop := Some "corn"; growth_stage := 2; watered := true |};
     {| crop := None; growth_stage := 0; watered := true |};
     {| crop := Some "potato"; growth_stage := 0; watered := true |}].
Proof. vm_compute. reflexivity. Qed.

(** The drying loop of [advance_day] skips the empty plots: the flag a
    rain left on one is still there after a day without event. *)
Example empty_plot_stays_wet :
  farm_plots
    (exec [NextDay (sample 1801439850948198) 0; a_normal_day] init)
  !! 0%nat
  = Some {| crop := None; growth_stage := 0; watered := true |}.
Proof. vm_compute. reflexivity. Qed.

(** * Further properties of the operations *)

(** ** Case analyses *)

Lemma typed_index (typed : Z) (g : FarmingGame) :
  valid_plot_num (typed - 1) g = true ->
  typed = Z.of_nat (Z.to_nat (typed - 1)) + 1.
Proof. intros H%valid_plot_num_spec. lia. Qed.

Lemma index_typed (i : nat) : Z.to_nat (Z.of_nat i + 1 - 1) = i.
Proof. lia. Qed.

Lemma water_cases (input : option Z) (g : FarmingGame) :
  water input g = (g, InvalidNumber) \/
  water input g = (g, InvalidPlotIndex) \/
  water input g = (g, EmptyPlot) \/
  exists (i : nat) p,
    input = Some (Z.of_nat i + 1) /\ farm_plots g !! i = Some p /\
    crop p <> None /\
    water input g
    = (set_farm_plots g (<[i := rain_on p]> (farm_plots g)), Success).
Proof.
  unfold water. destruct input as [typed|]; [| auto].
  destruct (valid_plot_num (typed - 1) g) eqn:Hv; simpl; [| auto].
  destruct (farm_plots g !! Z.to_nat (typed - 1)) as [p|] eqn:Hp; [| auto].
  destruct (crop p) as [c|] eqn:Hc; [| auto].
  right; right; right. exists (Z.to_nat (typed - 1)), p.
  split; [f_equal; exact (typed_index _ _ Hv) |].
  split; [exact Hp |]. split; [congruence |].
  unfold rain_on. rewrite Hc. reflexivity.
Qed.

Lemma harvest_cases (input : option Z) (g : FarmingGame) :
  (snd (harvest input g) <> Success /\ fst (harvest input g) = g) \/
  exists (i : nat) p c info,
    input = Some (Z.of_nat i + 1) /\ farm_plots g !! i = Some p /\
    crop p = Some c /\ crop_lookup c = Some info /\
    growth_time info <= growth_stage p /\
    harvest input g
    = (set_farm_plots (set_money g (money g + sell_price info))
         (<[i := empty_plot]> (farm_plots g)), Success).
Proof.
  unfold harvest. destruct input as [typed|]; [| left; split; [discriminate | reflexivity]].
  destruct (valid_plot_num (typed - 1) g) eqn:Hv; simpl;
    [| left; split; [discriminate | reflexivity]].
  destruct (farm_plots g !! Z.to_nat (typed - 1)) as [p|] eqn:Hp;
    [| left; split; [discriminate | reflexivity]].
  destruct (crop p) as [c|] eqn:Hc;
    [| left; split; [discriminate | reflexivity]].
  destruct (crop_lookup c) as [info|] eqn:Hinfo;
    [| left; split; [discriminate | reflexivity]].
  destruct (growth_stage p <? growth_time info) eqn:Hlt;
    [left; split; [discriminate | reflexivity] |].
  right. exists (Z.to_nat (typed - 1)), p, c, info.
  apply Z.ltb_ge in Hlt.
  split; [f_equal; exact (typed_index _ _ Hv) |]. auto.
Qed.

Lemma plant_cases (seed : string) (input : option Z) (g : FarmingGame) :
  (snd (plant seed input g) <> Success /\ fst (plant seed input g) = g) \/
  exists (n : Z) (i : nat) p,
    inventory g !! seed_key seed = Some n /\ n <> 0 /\
    input = Some (Z.of_nat i + 1) /\ farm_plots g !! i = Some p /\
    crop p = None /\
    plant seed input g
    = ({| money := money g; day := day g;
          farm_plots :=
            <[i := {| crop := Some seed; growth_stage := 0;
                      watered := false |}]> (farm_plots g);
          inventory :=
            if n =? 1 then delete (seed_key seed) (inventory g)
            else <[seed_key seed := n - 1]> (inventory g);
          game_over := game_over g |}, Success).
Proof.
  unfold plant.
  destruct (inventory g !! seed_key seed) as [n|] eqn:Hn;
    [| left; split; [discriminate | reflexivity]].
  destruct (n =? 0) eqn:H0; [left; split; [discriminate | reflexivity] |].
  destruct input as [typed|]; [| left; split; [discriminate | reflexivity]].
  destruct (valid_plot_num (typed - 1) g) eqn:Hv; simpl;
    [| left; split; [discriminate | reflexivity]].
  destruct (farm_plots g !! Z.to_nat (typed - 1)) as [p|] eqn:Hp;
    [| left; split; [discriminate | reflexivity]].
  destruct (crop p) as [c|] eqn:Hc;
    [left; split; [discriminate | reflexivity] |].
  right. exists n, (Z.to_nat (typed - 1)), p.
  apply Z.eqb_neq in H0.
  split; [reflexivity |]. split; [exact H0 |].
  split; [f_equal; exact (typed_index _ _ Hv) |].
  split; [exact Hp |]. split; [exact Hc |].
  replace (n - 1 =? 0) with (n =? 1)
    by (destruct (Z.eqb_spec n 1), (Z.eqb_spec (n - 1) 0); lia).
  unfold set_inventory, set_farm_plots. simpl.
  destruct (n =? 1); simpl; [| reflexivity].
  now rewrite delete_insert_eq.
Qed.

Lemma valid_plot_num_at (i : nat) (g : FarmingGame) :
  (i < length (farm_plots g))%nat ->
  valid_plot_num (Z.of_nat i + 1 - 1) g = true.
Proof. intros H. apply valid_plot_num_spec. lia. Qed.

Lemma water_at (i : nat) (p : plot) (g : FarmingGame) :
  farm_plots g !! i = Some p -> crop p <> None ->
  water (Some (Z.of_nat i + 1)) g
  = (set_farm_plots g (<[i := rain_on p]> (farm_plots g)), Success).
Proof.
  intros Hp Hc. unfold water.
  rewrite (valid_plot_num_at i g) by (eapply lookup_lt_Some; exact Hp).
  rewrite index_typed, Hp. simpl.
  destruct (crop p) as [c|] eqn:Ec; [| contradiction].
  unfold rain_on. rewrite Ec. reflexivity.
Qed.

Lemma harvest_at (i : nat) (p : plot) (g : FarmingGame) :
  farm_plots g !! i = Some p ->
  harvest (Some (Z.of_nat i + 1)) g
  = match crop p with
    | None => (g, EmptyPlot)
    | Some c =>
      match crop_lookup c with
      | None => (g, KeyError)
      | Some info =>
        if growth_stage p <? growth_time info then (g, NotReady)
        else (set_farm_plots (set_money g (money g + sell_price info))
                (<[i := empty_plot]> (farm_plots g)), Success)
      end
    end.
Proof.
  intros Hp. unfold harvest.
  rewrite (valid_plot_num_at i g) by (eapply lookup_lt_Some; exact Hp).
  rewrite index_typed, Hp. reflexivity.
Qed.

(** ** Watering *)

(** X1.  Whatever is typed, [water] changes nothing but watered flags:
    balance, day, inventory, [game_over], the number of plots and the
    crop and growth stage of every plot stay; no flag is cleared, and
    the only flag that can change is that of the plot addressed, which
    is then a planted one. *)
Theorem water_only_sets_flag (input : option Z) (g : FarmingGame) :
  let g' := fst (water input g) in
  money g' = money g /\ day g' = day g /\ inventory g' = inventory g /\
  game_over g' = game_over g /\
  length (farm_plots g') = length (farm_plots g) /\
  forall (i : nat) p, farm_plots g !! i = Some p ->
    exists p', farm_plots g' !! i = Some p' /\ crop p' = crop p /\
      growth_stage p' = growth_stage p /\
      (watered p = true -> watered p' = true) /\
      (watered p' <> watered p ->
       input = Some (Z.of_nat i + 1) /\ crop p <> None).
Proof.
  intros g'. subst g'.
  destruct (water_cases input g) as [H | [H | [H | (i & p & Hin & Hp & Hc & H)]]];
    rewrite H; simpl;
    try (repeat (split; [reflexivity |]); intros j q Hq; exists q;
         repeat (split; [solve [auto] |]); congruence).
  repeat (split; [reflexivity |]). split; [apply length_insert |].
  intros j q Hq. destruct (decide (i = j)) as [<- | Hne].
  - assert (q = p) as -> by congruence.
    exists (rain_on p). rewrite list_lookup_insert_eq
      by (eapply lookup_lt_Some; exact Hp).
    simpl. repeat (split; [reflexivity |]).
    intros _. split; [exact Hin | exact Hc].
  - exists q. rewrite list_lookup_insert_ne by exact Hne.
    repeat (split; [solve [auto] |]). congruence.
Qed.

(** X2.  Watering is idempotent: the same input a second time gives the
    same report and leaves the state of the first watering. *)
Theorem water_idempotent (input : option Z) (g : FarmingGame) :
  water input (fst (water input g))
  = (fst (water input g), snd (water input g)).
Proof.
  destruct (water_cases input g) as [H | [H | [H | (i & p & Hin & Hp & Hc & H)]]];
    rewrite H; cbn [fst snd]; try exact H.
  subst input.
  rewrite (water_at i (rain_on p)); simpl.
  - rewrite list_insert_insert_eq. reflexivity.
  - apply list_lookup_insert_eq. eapply lookup_lt_Some. exact Hp.
  - exact Hc.
Qed.

(** ** Harvesting *)

(** X3.  [harvest] succeeds exactly when the number typed addresses a
    plot in range that is planted with a crop of [CROP_DATA] whose
    growth stage has reached the growth time. *)
Theorem harvest_success_iff (input : option Z) (g : FarmingGame) :
  snd (harvest input g) = Success <->
  exists (i : nat) p c info,
    input = Some (Z.of_nat i + 1) /\ farm_plots g !! i = Some p /\
    crop p = Some c /\ crop_lookup c = Some info /\
    growth_time info <= growth_stage p.
Proof.
  split.
  - intros Hs.
    destruct (harvest_cases input g)
      as [[Hf _] | (i & p & c & info & Hin & Hp & Hc & Hinfo & Hge & _)];
      [contradiction |].
    exists i, p, c, info. auto.
  - intros (i & p & c & info & -> & Hp & Hc & Hinfo & Hge).
    rewrite (harvest_at i p g Hp), Hc, Hinfo.
    apply Z.ltb_ge in Hge. rewrite Hge. reflexivity.
Qed.

(** X4.  A crop is sold once: after a successful harvest the same input
    finds the plot empty and changes nothing. *)
Theorem no_double_harvest (input : option Z) (g : FarmingGame) :
  snd (harvest input g) = Success ->
  harvest input (fst (harvest input g))
  = (fst (harvest input g), EmptyPlot).
Proof.
  intros Hs.
  destruct (harvest_cases input g)
    as [[Hf _] | (i & p & c & info & -> & Hp & _ & _ & _ & H)];
    [contradiction |].
  rewrite H. cbn [fst snd].
  rewrite (harvest_at i empty_plot); [reflexivity |].
  simpl. apply list_lookup_insert_eq. eapply lookup_lt_Some. exact Hp.
Qed.

Lemma no_double_harvest_overgrown :
  harvest (Some 1) (fst (harvest (Some 1) overgrown))
  = (fst (harvest (Some 1) overgrown), EmptyPlot).
Proof. apply no_double_harvest. vm_compute. reflexivity. Defined.

Lemma water_only_sets_flag_overgrown :
  exists p',
    farm_plots (fst (water (Some 1) overgrown)) !! 0%nat = Some p' /\
    crop p' = crop (wheat_at 5 false) /\
    growth_stage p' = growth_stage (wheat_at 5 false) /\
    (watered (wheat_at 5 false) = true -> watered p' = true) /\
    (watered p' <> watered (wheat_at 5 false) ->
     Some 1 = Some (Z.of_nat 0 + 1) /\ crop (wheat_at 5 false) <> None).
Proof.
  apply (proj2 (proj2 (proj2 (proj2 (proj2
           (water_only_sets_flag (Some 1) overgrown)))))).
  vm_compute. reflexivity.
Defined.

Lemma harvest_success_iff_overgrown :
  snd (harvest (Some (Z.of_nat 0 + 1)) overgrown) = Success.
Proof.
  apply (proj2 (harvest_success_iff (Some (Z.of_nat 0 + 1)) overgrown)).
  exists 0%nat, (wheat_at 5 false), "wheat",
    {| growth_time := 4; seed_price := 10; sell_price := 25 |}.
  split; [reflexivity |]. split; [vm_compute; reflexivity |].
  split; [reflexivity |]. split; [reflexivity |].
  vm_compute. discriminate.
Defined.

(** ** Planting *)

(** X5.  What was just planted cannot be harvested: after a successful
    planting of a crop of [CROP_DATA], a harvest at the same input is
    refused as not ready and changes nothing. *)
Theorem planted_not_ready (seed : string) (input : option Z)
    (g : FarmingGame) :
  snd (plant seed input g) = Success -> is_Some (crop_lookup seed) ->
  harvest input (fst (plant seed input g))
  = (fst (plant seed input g), NotReady).
Proof.
  intros Hs [info Hinfo].
  destruct (plant_cases seed input g)
    as [[Hf _] | (n & i & p & _ & _ & -> & Hp & _ & H)]; [contradiction |].
  rewrite H. cbn [fst snd].
  rewrite (harvest_at i {| crop := Some seed; growth_stage := 0;
                           watered := false |}).
  - cbn [crop growth_stage]. rewrite Hinfo.
    apply crop_prices in Hinfo.
    assert (Hlt : (0 <? growth_time info) = true) by (apply Z.ltb_lt; lia).
    rewrite Hlt. reflexivity.
  - cbn [farm_plots]. apply list_lookup_insert_eq.
    eapply lookup_lt_Some. exact Hp.
Qed.

Lemma planted_not_ready_init :
  harvest (Some 2) (fst (plant "potato" (Some 2) init))
  = (fst (plant "potato" (Some 2) init), NotReady).
Proof.
  apply planted_not_ready.
  - vm_compute. reflexivity.
  - vm_compute. eexists. reflexivity.
Defined.

(** X6.  A growing crop is never planted over: after a successful
    planting, planting any seed at the same input is refused, for lack
    of that seed or else because the plot is occupied, and changes
    nothing. *)
Theorem no_overplanting (seed seed' : string) (input : option Z)
    (g : FarmingGame) :
  snd (plant seed input g) = Success ->
  let g' := fst (plant seed input g) in
  plant seed' input g' = (g', InsufficientInventory) \/
  plant seed' input g' = (g', PlotOccupied).
Proof.
  intros Hs g'. subst g'.
  destruct (plant_cases seed input g)
    as [[Hf _] | (n & i & p & _ & _ & -> & Hp & _ & H)]; [contradiction |].
  rewrite H. cbn [fst snd].
  set (g' := {| money := money g; day := day g;
                farm_plots := _; inventory := _;
                game_over := game_over g |}).
  unfold plant.
  destruct (inventory g' !! seed_key seed') as [m|]; [| now left].
  destruct (m =? 0); [now left |].
  rewrite (valid_plot_num_at i g')
    by (subst g'; cbn [farm_plots]; rewrite length_insert;
        eapply lookup_lt_Some; exact Hp).
  rewrite index_typed. subst g'. cbn [farm_plots negb].
  rewrite list_lookup_insert_eq by (eapply lookup_lt_Some; exact Hp).
  now right.
Qed.

Lemma no_overplanting_init :
  plant "wheat" (Some 2) (fst (plant "potato" (Some 2) init))
  = (fst (plant "potato" (Some 2) init), InsufficientInventory) \/
  plant "wheat" (Some 2) (fst (plant "potato" (Some 2) init))
  = (fst (plant "potato" (Some 2) init), PlotOccupied).
Proof. apply no_overplanting. vm_compute. reflexivity. Defined.

Lemma plant_at (seed : string) (n : Z) (i : nat) (p : plot)
    (g : FarmingGame) :
  inventory g !! seed_key seed = Some n -> n <> 0 ->
  farm_plots g !! i = Some p -> crop p = None ->
  plant seed (Some (Z.of_nat i + 1)) g
  = ({| money := money g; day := day g;
        farm_plots :=
          <[i := {| crop := Some seed; growth_stage := 0;
                    watered := false |}]> (farm_plots g);
        inventory :=
          if n =? 1 then delete (seed_key seed) (inventory g)
          else <[seed_key seed := n - 1]> (inventory g);
        game_over := game_over g |}, Success).
Proof.
  intros Hn Hn0 Hp Hc.
  destruct (plant_cases seed (Some (Z.of_nat i + 1)) g)
    as [[Hf _] | (n' & i' & p' & Hn' & _ & Hi & _ & _ & H)].
  - exfalso. apply Hf. unfold plant. cbv zeta. rewrite Hn.
    apply Z.eqb_neq in Hn0. rewrite Hn0.
    rewrite (valid_plot_num_at i g) by (eapply lookup_lt_Some; exact Hp).
    rewrite index_typed. cbn [negb]. rewrite Hp, Hc.
    destruct (n - 1 =? 0); reflexivity.
  - assert (i' = i) by (injection Hi; lia). subst i'.
    rewrite Hn in Hn'. injection Hn' as <-. exact H.
Qed.

Lemma buy_seed_at (c : string) (info : crop_info) (g : FarmingGame) :
  crop_lookup c = Some info -> seed_price info <= money g ->
  buy_seed c g
  = ({| money := money g - seed_price info; day := day g;
        farm_plots := farm_plots g;
        inventory :=
          <[seed_key c := default 0 (inventory g !! seed_key c) + 1]>
            (inventory g);
        game_over := game_over g |}, Success).
Proof.
  intros Hinfo Hprice. unfold buy_seed. rewrite Hinfo. cbv zeta.
  apply Z.leb_le in Hprice. rewrite Hprice. reflexivity.
Qed.

(** X7.  Buying a seed and planting it at once leaves the inventory as
    it was, when that held no entry of the kind or one of at least one
    seed: on an empty plot in range, with the price in hand, the
    purchase followed by the planting succeeds, the balance is down by
    the seed price, the plot holds the crop at stage 0, and nothing else
    has changed. *)
Theorem buy_then_plant (c : string) (info : crop_info) (i : nat)
    (p : plot) (g : FarmingGame) :
  crop_lookup c = Some info -> seed_price info <= money g ->
  (forall n, inventory g !! seed_key c = Some n -> 1 <= n) ->
  farm_plots g !! i = Some p -> crop p = None ->
  snd (buy_seed c g) = Success /\
  plant c (Some (Z.of_nat i + 1)) (fst (buy_seed c g))
  = ({| money := money g - seed_price info; day := day g;
        farm_plots :=
          <[i := {| crop := Some c; growth_stage := 0;
                    watered := false |}]> (farm_plots g);
        inventory := inventory g;
        game_over := game_over g |}, Success).
Proof.
  intros Hinfo Hprice Hinv Hp Hc.
  rewrite (buy_seed_at c info g Hinfo Hprice). cbn [fst snd].
  split; [reflexivity |].
  set (held := default 0 (inventory g !! seed_key c)).
  assert (Hheld : 0 <= held).
  { subst held. destruct (inventory g !! seed_key c) as [n|] eqn:En;
      simpl; [specialize (Hinv n eq_refl) |]; lia. }
  rewrite (plant_at c (held + 1) i p);
    [| cbn [inventory]; apply lookup_insert_eq | lia | exact Hp | exact Hc].
  cbn [money day farm_plots inventory game_over].
  f_equal. f_equal.
  replace (held + 1 - 1) with held by lia.
  rewrite insert_insert_eq, delete_insert_eq.
  destruct (held + 1 =? 1) eqn:E1.
  - apply Z.eqb_eq in E1.
    assert (Hnone : inventory g !! seed_key c = None).
    { subst held. destruct (inventory g !! seed_key c) as [n|] eqn:En;
        [| reflexivity].
      simpl in E1. specialize (Hinv n eq_refl). lia. }
    apply delete_id. exact Hnone.
  - apply Z.eqb_neq in E1.
    assert (Hsome : inventory g !! seed_key c = Some held).
    { subst held. destruct (inventory g !! seed_key c) as [n|] eqn:En;
        [reflexivity | simpl in E1; lia]. }
    apply insert_id. exact Hsome.
Qed.

Lemma buy_then_plant_init :
  snd (buy_seed "corn" init) = Success /\
  plant "corn" (Some (Z.of_nat 3 + 1)) (fst (buy_seed "corn" init))
  = ({| money := money init - 15; day := day init;
        farm_plots :=
          <[3%nat := {| crop := Some "corn"; growth_stage := 0;
                        watered := false |}]> (farm_plots init);
        inventory := inventory init;
        game_over := game_over init |}, Success).
Proof.
  apply (buy_then_plant "corn"
           {| growth_time := 5; seed_price := 15; sell_price := 40 |}
           3 empty_plot init).
  - reflexivity.
  - vm_compute. discriminate.
  - intros n H. vm_compute in H. discriminate.
  - reflexivity.
  - reflexivity.
Defined.

(** ** The shop *)

Lemma buy_seed_cases (c : string) (g : FarmingGame) :
  (crop_lookup c = None /\ buy_seed c g = (g, UnknownCrop)) \/
  (exists info, crop_lookup c = Some info /\ money g < seed_price info /\
     buy_seed c g = (g, InsufficientFunds)) \/
  (exists info, crop_lookup c = Some info /\ seed_price info <= money g /\
     buy_seed c g
     = ({| money := money g - seed_price info; day := day g;
           farm_plots := farm_plots g;
           inventory :=
             <[seed_key c := default 0 (inventory g !! seed_key c) + 1]>
               (inventory g);
           game_over := game_over g |}, Success)).
Proof.
  destruct (crop_lookup c) as [info|] eqn:Hinfo.
  - right. destruct (Z_lt_le_dec (money g) (seed_price info)) as [Hlt | Hle].
    + left. exists info. split; [reflexivity | split; [exact Hlt |]].
      unfold buy_seed. rewrite Hinfo. cbv zeta.
      apply Z.leb_gt in Hlt. rewrite Hlt. reflexivity.
    + right. exists info. split; [reflexivity | split; [exact Hle |]].
      now apply buy_seed_at.
  - left. split; [reflexivity |]. unfold buy_seed. now rewrite Hinfo.
Qed.

Lemma visit_shop_cons (c : string) (cs : list string) (g : FarmingGame) :
  String.eqb c "exit" = false ->
  visit_shop (c :: cs) g
  = (fst (visit_shop cs (fst (buy_seed c g))),
     snd (buy_seed c g) :: snd (visit_shop cs (fst (buy_seed c g)))).
Proof.
  intros Hc. cbn [visit_shop]. rewrite Hc.
  destruct (buy_seed c g) as [g1 o]. cbn [fst snd].
  destruct (visit_shop cs g1) as [g2 os]. reflexivity.
Qed.

(** X8.  Nothing typed after [exit] reaches the shop: the visit ends at
    the first [exit], with the state and the answers of the choices
    before it. *)
Theorem shop_ends_at_exit (cs1 cs2 : list string) (g : FarmingGame) :
  visit_shop (cs1 ++ "exit" :: cs2) g = visit_shop cs1 g.
Proof.
  revert g. induction cs1 as [|c cs1 IH]; intros g.
  - reflexivity.
  - rewrite <- app_comm_cons.
    destruct (String.eqb c "exit") eqn:Hc.
    + cbn [visit_shop]. rewrite Hc. reflexivity.
    + rewrite !(visit_shop_cons c) by exact Hc. rewrite IH. reflexivity.
Qed.

(** The choices of a visit whose purchase succeeded. *)
Fixpoint bought (choices : list string) (os : list outcome) : list string :=
  match choices, os with
  | c :: cs, Success :: os' => c :: bought cs os'
  | _ :: cs, _ :: os' => bought cs os'
  | _, _ => []
  end.

(** The seed price of a crop of [CROP_DATA]. *)
Definition price (c : string) : Z :=
  match crop_lookup c with
  | Some info => seed_price info
  | None => 0
  end.

Definition bill (cs : list string) : Z :=
  foldr (fun c total => price c + total) 0 cs.

(** X9.  The books of a shop visit balance: the money spent is the sum
    of the seed prices of the purchases that succeeded, each of them
    added one seed of its kind to the inventory, no other entry of the
    inventory changed, and the day, the plots and the end of the game
    are untouched. *)
Theorem shop_accounting (cs : list string) (g : FarmingGame) :
  let g' := fst (visit_shop cs g) in
  let b := bought cs (snd (visit_shop cs g)) in
  money g' = money g - bill b /\
  day g' = day g /\ farm_plots g' = farm_plots g /\
  game_over g' = game_over g /\
  (forall c,
     default 0 (inventory g' !! seed_key c)
     = default 0 (inventory g !! seed_key c)
       + Z.of_nat (count_occ string_dec b c)) /\
  (forall k, (forall c, c ∈ b -> k <> seed_key c) ->
     inventory g' !! k = inventory g !! k).
Proof.
  cbv zeta. revert g. induction cs as [|c cs IH]; intros g.
  - cbn [visit_shop fst snd bought bill foldr count_occ].
    split; [lia |]. do 3 (split; [reflexivity |]).
    split; [intros c; lia | reflexivity].
  - destruct (String.eqb c "exit") eqn:Hc.
    + cbn [visit_shop]. rewrite Hc.
      cbn [fst snd bought bill foldr count_occ].
      split; [lia |]. do 3 (split; [reflexivity |]).
      split; [intros c'; lia | reflexivity].
    + rewrite (visit_shop_cons c cs g Hc). cbn [fst snd].
      specialize (IH (fst (buy_seed c g))).
      destruct IH as (IHm & IHd & IHp & IHo & IHi & IHk).
      rewrite IHm, IHd, IHp, IHo.
      destruct (buy_seed_cases c g)
        as [[_ H] | [(info & _ & _ & H) | (info & Hinfo & _ & H)]];
        rewrite H in *; cbn [fst snd bought] in *.
      * repeat (split; [reflexivity |]). split; assumption.
      * repeat (split; [reflexivity |]). split; assumption.
      * cbn [money day farm_plots game_over inventory] in *.
        split; [| split; [reflexivity | split; [reflexivity |
                   split; [reflexivity | split]]]].
        -- cbn [bill foldr]. fold (bill (bought cs
             (snd (visit_shop cs
               {| money := money g - seed_price info; day := day g;
                  farm_plots := farm_plots g;
                  inventory :=
                    <[seed_key c :=
                        default 0 (inventory g !! seed_key c) + 1]>
                      (inventory g);
                  game_over := game_over g |})))).
           unfold price. rewrite Hinfo. lia.
        -- intros c'. rewrite IHi. cbn [count_occ].
           destruct (string_dec c c') as [-> | Hne].
           ++ rewrite lookup_insert_eq. simpl default. lia.
           ++ rewrite lookup_insert_ne
                by (intros Heq; apply seed_key_inj in Heq; contradiction).
              lia.
        -- intros k Hk. rewrite IHk.
           ++ apply lookup_insert_ne. intros <-.
              apply (Hk c); [apply list_elem_of_here | reflexivity].
           ++ intros c' Hc'. apply Hk. now apply list_elem_of_further.
Qed.

Lemma shop_accounting_init :
  inventory (fst (visit_shop ["corn"; "exit"] init)) !! "wheat seeds"
  = inventory init !! "wheat seeds".
Proof.
  apply (proj2 (proj2 (proj2 (proj2 (proj2
           (shop_accounting ["corn"; "exit"] init)))))).
  intros c Hc. vm_compute in Hc.
  apply list_elem_of_singleton in Hc. subst c. discriminate.
Defined.

(** X10.  Without the price of a seed nothing is sold: when the balance
    is below the seed price of every crop of [CROP_DATA], a shop visit
    leaves the state as it was, whatever is typed. *)
Theorem shop_without_money (cs : list string) (g : FarmingGame) :
  (forall c info, crop_lookup c = Some info -> money g < seed_price info) ->
  fst (visit_shop cs g) = g /\
  Forall (fun o => o = InsufficientFunds \/ o = UnknownCrop)
    (snd (visit_shop cs g)).
Proof.
  intros Hpoor. induction cs as [|c cs [IHg IHo]].
  - split; [reflexivity | constructor].
  - destruct (String.eqb c "exit") eqn:Hc.
    + cbn [visit_shop]. rewrite Hc. split; [reflexivity | constructor].
    + rewrite (visit_shop_cons c cs g Hc). cbn [fst snd].
      destruct (buy_seed_cases c g)
        as [[_ H] | [(info & _ & _ & H) | (info & Hinfo & Hle & _)]].
      * rewrite H. cbn [fst snd]. split; [exact IHg |].
        constructor; [now right | exact IHo].
      * rewrite H. cbn [fst snd]. split; [exact IHg |].
        constructor; [now left | exact IHo].
      * specialize (Hpoor c info Hinfo). lia.
Qed.

Lemma shop_without_money_poor :
  fst (visit_shop ["potato"; "seeds"; "corn"] (set_money init 4))
  = set_money init 4 /\
  Forall (fun o => o = InsufficientFunds \/ o = UnknownCrop)
    (snd (visit_shop ["potato"; "seeds"; "corn"] (set_money init 4))).
Proof.
  apply shop_without_money. intros c info H.
  apply crop_prices in H as Hp.
  unfold crop_lookup, CROP_DATA in H. simpl in H.
  repeat case_match; simplify_eq; vm_compute; reflexivity.
Defined.

(** * Properties of play *)

(** ** What each command leaves alone *)

Lemma plant_frame (s : string) (i : option Z) (g : FarmingGame) :
  let g' := fst (plant s i g) in
  money g' = money g /\ day g' = day g /\ game_over g' = game_over g /\
  length (farm_plots g') = length (farm_plots g).
Proof.
  cbv zeta.
  destruct (plant_cases s i g) as [[_ ->] | (n & j & p & _ & _ & _ & _ & _ & ->)].
  - auto.
  - cbn [fst money day game_over farm_plots]. rewrite length_insert. auto.
Qed.

Lemma water_frame (i : option Z) (g : FarmingGame) :
  let g' := fst (water i g) in
  money g' = money g /\ day g' = day g /\ game_over g' = game_over g /\
  inventory g' = inventory g /\
  length (farm_plots g') = length (farm_plots g).
Proof.
  cbv zeta.
  destruct (water_cases i g) as [-> | [-> | [-> | (j & p & _ & _ & _ & ->)]]];
    cbn [fst set_farm_plots money day game_over inventory farm_plots];
    rewrite ?length_insert; auto.
Qed.

Lemma harvest_frame (i : option Z) (g : FarmingGame) :
  let g' := fst (harvest i g) in
  day g' = day g /\ game_over g' = game_over g /\
  inventory g' = inventory g /\
  length (farm_plots g') = length (farm_plots g).
Proof.
  cbv zeta.
  destruct (harvest_cases i g)
    as [[_ ->] | (j & p & c & info & _ & _ & _ & _ & _ & ->)].
  - auto.
  - cbn [fst set_farm_plots set_money money day game_over inventory
         farm_plots].
    rewrite length_insert. auto.
Qed.

Lemma visit_shop_frame (cs : list string) (g : FarmingGame) :
  let g' := fst (visit_shop cs g) in
  day g' = day g /\ game_over g' = game_over g /\
  farm_plots g' = farm_plots g.
Proof.
  cbv zeta. revert g. induction cs as [|c cs IH]; intros g.
  - auto.
  - destruct (String.eqb c "exit") eqn:Hc.
    + cbn [visit_shop]. rewrite Hc. auto.
    + rewrite (visit_shop_cons c cs g Hc). cbn [fst].
      destruct (IH (fst (buy_seed c g))) as (-> & -> & ->).
      destruct (buy_seed_cases c g)
        as [[_ ->] | [(info & _ & _ & ->) | (info & _ & _ & ->)]]; auto.
Qed.

Lemma handle_random_event_frame (chance : Q) (pick : nat)
    (g : FarmingGame) :
  let g' := fst (handle_random_event chance pick g) in
  money g' = money g /\ day g' = day g /\ inventory g' = inventory g /\
  game_over g' = game_over g /\
  length (farm_plots g') = length (farm_plots g).
Proof.
  cbv zeta. unfold handle_random_event.
  repeat case_match;
    cbn [fst set_farm_plots money day game_over inventory farm_plots];
    rewrite ?length_insert, ?length_map; auto.
Qed.

Lemma handle_random_event_plot (chance : Q) (pick : nat) (g : FarmingGame)
    (i : nat) (p : plot) :
  farm_plots g !! i = Some p ->
  exists p', farm_plots (fst (handle_random_event chance pick g)) !! i
             = Some p' /\
    crop p' = crop p /\
    (growth_stage p' = growth_stage p \/
     growth_stage p' = Z.max 0 (growth_stage p - 1)).
Proof.
  intros Hp. unfold handle_random_event.
  destruct (Qltb chance lit_0_15).
  - destruct (growing_plots g) as [[|i0 gs]|]; cbn [fst]; eauto.
    set (j := nth _ _ _).
    destruct (farm_plots g !! j) as [q|] eqn:Hq; cbn [fst]; eauto.
    cbn [set_farm_plots farm_plots].
    destruct (decide (j = i)) as [-> | Hne].
    + rewrite Hp in Hq. injection Hq as <-.
      exists (damage p). rewrite list_lookup_insert_eq
        by (eapply lookup_lt_Some; exact Hp).
      cbn [damage crop growth_stage]. auto.
    + rewrite list_lookup_insert_ne by exact Hne. eauto.
  - destruct (Qltb chance lit_0_30); cbn [fst]; eauto.
    cbn [set_farm_plots farm_plots].
    change (map rain_on (farm_plots g)) with (rain_on <$> farm_plots g).
    rewrite list_lookup_fmap, Hp. exists (rain_on p).
    cbn [fmap option_fmap option_map rain_on crop growth_stage]. auto.
Qed.

Lemma handle_random_event_rain (chance : Q) (pick : nat) (g : FarmingGame) :
  snd (handle_random_event chance pick g) = Rain ->
  fst (handle_random_event chance pick g)
  = set_farm_plots g (map rain_on (farm_plots g)).
Proof.
  unfold handle_random_event.
  repeat case_match; cbn [fst snd]; intros Hev;
    first [discriminate Hev | reflexivity].
Qed.

(** The first phase of [advance_day]: the day counter and the loop over
    the plots. *)
Definition grown (g : FarmingGame) : FarmingGame :=
  set_farm_plots (set_day g (day g + 1)) (map grow_plot (farm_plots g)).

Lemma advance_day_unfold (chance : Q) (pick : nat) (g : FarmingGame) :
  advance_day chance pick g
  = (let r := handle_random_event chance pick (grown g) in
     match snd r with
     | EventKeyError => fst r
     | _ => if GAME_GOAL <=? money (fst r)
            then set_game_over (fst r) true else fst r
     end, snd (handle_random_event chance pick (grown g))).
Proof.
  unfold advance_day, grown. cbv zeta. cbn [set_day farm_plots].
  destruct (handle_random_event chance pick _) as [g3 ev].
  cbn [fst snd]. destruct ev; try reflexivity;
    destruct (GAME_GOAL <=? money g3); reflexivity.
Qed.

Lemma advance_day_frame (chance : Q) (pick : nat) (g : FarmingGame) :
  let g' := fst (advance_day chance pick g) in
  money g' = money g /\ inventory g' = inventory g /\
  farm_plots g'
  = farm_plots (fst (handle_random_event chance pick (grown g))) /\
  length (farm_plots g') = length (farm_plots g).
Proof.
  cbv zeta. rewrite advance_day_unfold. cbv zeta. cbn [fst].
  destruct (handle_random_event_frame chance pick (grown g))
    as (Hm & _ & Hi & _ & Hl).
  unfold grown in Hm, Hi, Hl at 2.
  cbn [set_farm_plots set_day money inventory farm_plots] in Hm, Hi, Hl.
  rewrite length_map in Hl.
  destruct (snd (handle_random_event chance pick (grown g)));
    try destruct (GAME_GOAL <=? _);
    cbn [set_game_over money inventory farm_plots]; auto.
Qed.

Lemma do_action_game_over (a : action) (g : FarmingGame) :
  game_over (do_action a g) = true <->
  game_over g = true \/ a = Quit \/
  exists chance pick, a = NextDay chance pick /\ GAME_GOAL <= money g /\
    snd (advance_day chance pick g) <> EventKeyError.
Proof.
  assert (Hsame : forall g', game_over g' = game_over g ->
            (forall chance pick, a <> NextDay chance pick) -> a <> Quit ->
            (game_over g' = true <->
             game_over g = true \/ a = Quit \/
             exists chance pick, a = NextDay chance pick /\
               GAME_GOAL <= money g /\
               snd (advance_day chance pick g) <> EventKeyError)).
  { intros g' -> Hn Hq. split; [auto |].
    intros [H | [H | (chance & pick & H & _)]];
      [exact H | contradiction | now apply Hn in H]. }
  destruct a as [s i | i | i | cs | | chance pick | |]; cbn [do_action].
  - apply Hsame; [apply plant_frame | discriminate | discriminate].
  - apply Hsame; [apply water_frame | discriminate | discriminate].
  - apply Hsame; [apply harvest_frame | discriminate | discriminate].
  - apply Hsame; [apply visit_shop_frame | discriminate | discriminate].
  - apply Hsame; [reflexivity | discriminate | discriminate].
  - rewrite advance_day_unfold. cbv zeta. cbn [fst snd].
    destruct (handle_random_event_frame chance pick (grown g))
      as (Hm & _ & _ & Ho & _).
    change (money (grown g)) with (money g) in Hm.
    change (game_over (grown g)) with (game_over g) in Ho.
    assert (Hev : forall c k, NextDay chance pick = NextDay c k ->
              snd (advance_day c k g)
              = snd (handle_random_event chance pick (grown g))).
    { intros c k Heq. injection Heq as <- <-.
      rewrite advance_day_unfold. reflexivity. }
    destruct (snd (handle_random_event chance pick (grown g))) eqn:Eev;
      cbv iota.
    all: try (rewrite Hm; destruct (GAME_GOAL <=? money g) eqn:Egoal;
              [apply Z.leb_le in Egoal | apply Z.leb_gt in Egoal];
              cbn [set_game_over game_over]; rewrite ?Ho;
              (split;
               [ intros H; first
                   [ right; right; exists chance, pick;
                     split; [reflexivity |]; split; [exact Egoal |];
                     rewrite advance_day_unfold; cbn [snd]; rewrite Eev;
                     discriminate
                   | left; exact H ]
               | intros [H | [H | (c & k & H & Hgoal & _)]];
                 first [reflexivity | exact H | discriminate H | lia] ])).
    rewrite Ho. split; [auto |].
    intros [H | [H | (c & k & H & _ & Hne)]];
      [exact H | discriminate H |].
    exfalso. apply Hne. now rewrite (Hev c k H).
  - split; [auto | reflexivity].
  - apply Hsame; [reflexivity | discriminate | discriminate].
Qed.

Lemma run_over (acts : list action) (g : FarmingGame) :
  game_over g = true -> run acts g = g.
Proof. intros H. destruct acts; cbn [run]; [| rewrite H]; reflexivity. Qed.

(** ** What holds in every state of play *)

(** Three watered nights bring the potato of the first plot to its
    growth time. *)
Definition potato_grown : FarmingGame :=
  exec [Plant "potato" (Some 1);
        Water (Some 1); a_normal_day;
        Water (Some 1); a_normal_day;
        Water (Some 1); a_normal_day] init.

Lemma potato_grown_reachable : reachable potato_grown.
Proof. apply reachable_exec, reach_init. Qed.

(** X11.  In play the inventory is well formed: every entry counts at
    least one seed, and its name is that of the seeds of a crop of
    [CROP_DATA]. *)
Theorem inventory_well_formed (g : FarmingGame) (k : string) (n : Z) :
  reachable g -> inventory g !! k = Some n ->
  1 <= n /\ exists c, k = seed_key c /\ is_Some (crop_lookup c).
Proof.
  intros Hr Hk. apply reachable_inv in Hr.
  exact (inv_inventory g Hr k n Hk).
Qed.

Lemma inventory_well_formed_potato_grown :
  1 <= 4 /\ exists c, "potato seeds" = seed_key c /\ is_Some (crop_lookup c).
Proof.
  apply (inventory_well_formed potato_grown "potato seeds" 4).
  - exact potato_grown_reachable.
  - vm_compute. reflexivity.
Defined.

(** X12.  The farm keeps its four plots: in every state of play the
    plot numbers accepted at the prompts are exactly 1 to 4. *)
Theorem plot_numbers_in_play (g : FarmingGame) (typed : Z) :
  reachable g ->
  length (farm_plots g) = INITIAL_PLOTS /\
  (valid_plot_num (typed - 1) g = true <-> 1 <= typed <= 4).
Proof.
  intros Hr. apply reachable_inv in Hr. pose proof (inv_count g Hr) as Hc.
  split; [exact Hc |].
  rewrite valid_plot_num_spec, Hc. unfold INITIAL_PLOTS. lia.
Qed.

Lemma plot_numbers_in_play_potato_grown :
  length (farm_plots potato_grown) = INITIAL_PLOTS /\
  (valid_plot_num (5 - 1) potato_grown = true <-> 1 <= 5 <= 4).
Proof. apply plot_numbers_in_play. exact potato_grown_reachable. Defined.

Lemma plot_known_grow (p : plot) : plot_known (grow_plot p) = plot_known p.
Proof.
  unfold plot_known, grow_plot.
  destruct (crop p) as [c|] eqn:Ec; cbn [crop]; rewrite ?Ec; reflexivity.
Qed.

Lemma crops_known_grown (g : FarmingGame) :
  crops_known (grown g) = crops_known g.
Proof.
  unfold crops_known, grown. cbn [set_farm_plots farm_plots].
  induction (farm_plots g) as [|p ps IH]; [reflexivity |].
  cbn [map forallb]. now rewrite plot_known_grow, IH.
Qed.

Lemma handle_random_event_no_key_error (chance : Q) (pick : nat)
    (g : FarmingGame) :
  crops_known g = true ->
  snd (handle_random_event chance pick g) <> EventKeyError.
Proof.
  intros Hk. destruct (growing_plots_known g Hk) as [gs Hgs].
  unfold handle_random_event. rewrite Hgs.
  repeat case_match; cbn [snd]; discriminate.
Qed.

(** X13.  No [KeyError] in play.  In every state of play the lookups of
    [CROP_DATA] by the crop of a plot succeed: a harvest, the random
    event and the day advance never end in a [KeyError], whatever is
    typed and whatever the random source gives. *)
Theorem no_key_error_in_play (g : FarmingGame) (input : option Z)
    (chance : Q) (pick : nat) :
  reachable g ->
  snd (harvest input g) <> KeyError /\
  snd (handle_random_event chance pick g) <> EventKeyError /\
  snd (advance_day chance pick g) <> EventKeyError.
Proof.
  intros Hr. pose proof (reachable_crops_known g Hr) as Hk.
  apply reachable_inv in Hr. pose proof (inv_plots g Hr) as Hp.
  split; [| split].
  - unfold harvest. destruct input as [typed|]; [| discriminate].
    cbv zeta. destruct (negb _); [discriminate |].
    destruct (farm_plots g !! _) as [p|] eqn:Ep; [| discriminate].
    destruct (crop p) as [c|] eqn:Ec; [| discriminate].
    destruct (proj2 (Forall_lookup_1 _ _ _ _ Hp Ep) c Ec) as [info ->].
    destruct (_ <? _); discriminate.
  - now apply handle_random_event_no_key_error.
  - rewrite advance_day_unfold. cbn [snd].
    apply handle_random_event_no_key_error.
    now rewrite crops_known_grown.
Qed.

Lemma no_key_error_in_play_potato_grown :
  snd (harvest (Some 1) potato_grown) <> KeyError /\
  snd (handle_random_event (sample 0) 0 potato_grown) <> EventKeyError /\
  snd (advance_day (sample 0) 0 potato_grown) <> EventKeyError.
Proof. apply no_key_error_in_play. exact potato_grown_reachable. Defined.

(** X14.  No crop is sold before it had the nights to grow: in play a
    harvest succeeds only when the day counter is beyond the growth time
    of the crop, so never before day 4. *)
Theorem no_harvest_before_grown (g : FarmingGame) (input : option Z) :
  reachable g -> snd (harvest input g) = Success ->
  4 <= day g /\
  exists (i : nat) p c info,
    input = Some (Z.of_nat i + 1) /\ farm_plots g !! i = Some p /\
    crop p = Some c /\ crop_lookup c = Some info /\
    growth_time info < day g.
Proof.
  intros Hr Hs. apply reachable_inv in Hr. pose proof (inv_plots g Hr) as Hp.
  destruct (harvest_cases input g)
    as [[Hf _] | (i & p & c & info & Hin & Hi & Hc & Hinfo & Hready & _)];
    [contradiction |].
  destruct (Forall_lookup_1 _ _ _ _ Hp Hi) as [Hstage _].
  assert (Hlt : growth_time info < day g) by lia.
  split.
  - unfold crop_lookup, CROP_DATA in Hinfo. simpl in Hinfo.
    repeat case_match; simplify_eq; cbn [growth_time] in Hlt; lia.
  - exists i, p, c, info. auto.
Qed.

Lemma no_harvest_before_grown_potato :
  4 <= day potato_grown /\
  exists (i : nat) p c info,
    Some 1 = Some (Z.of_nat i + 1) /\
    farm_plots potato_grown !! i = Some p /\
    crop p = Some c /\ crop_lookup c = Some info /\
    growth_time info < day potato_grown.
Proof.
  apply no_harvest_before_grown.
  - exact potato_grown_reachable.
  - vm_compute. reflexivity.
Defined.

(** ** The day counter *)

(** The nights among the commands. *)
Fixpoint nights (acts : list action) : Z :=
  match acts with
  | [] => 0
  | NextDay _ _ :: rest => 1 + nights rest
  | _ :: rest => nights rest
  end.

(** X15.  The day counter counts the nights: after any commands it is
    ahead by the number of [NextDay] among them, whatever the others
    were and whatever the random events. *)
Theorem day_counts_nights (acts : list action) (g : FarmingGame) :
  day (exec acts g) = day g + nights acts.
Proof.
  revert g. induction acts as [|a acts IH]; intros g.
  - cbn [exec fold_left nights]. lia.
  - change (exec (a :: acts) g) with (exec acts (do_action a g)).
    rewrite IH.
    destruct a as [s i | i | i | cs | | chance pick | |];
      cbn [do_action nights].
    + destruct (plant_frame s i g) as (_ & -> & _). reflexivity.
    + destruct (water_frame i g) as (_ & -> & _). reflexivity.
    + destruct (harvest_frame i g) as (-> & _). reflexivity.
    + destruct (visit_shop_frame cs g) as (-> & _). reflexivity.
    + reflexivity.
    + rewrite advance_day_day. lia.
    + reflexivity.
    + reflexivity.
Qed.

(** ** The end of the game *)

(** X16.  The end of the game is final: no command sets [game_over]
    back to false. *)
Theorem game_over_is_final (acts : list action) (g : FarmingGame) :
  game_over g = true -> game_over (exec acts g) = true.
Proof.
  revert g. induction acts as [|a acts IH]; intros g Hg.
  - exact Hg.
  - change (exec (a :: acts) g) with (exec acts (do_action a g)).
    apply IH. apply do_action_game_over. now left.
Qed.

Lemma game_over_is_final_after_quit :
  game_over (exec [Shop ["corn"; "exit"]; a_normal_day]
               (set_game_over init true)) = true.
Proof. apply game_over_is_final. reflexivity. Defined.

(** X17.  The loop of [run] ends for one of two reasons only: [Quit]
    was among the commands, or the balance has reached [GAME_GOAL]. *)
Theorem run_ends_by_quit_or_goal (acts : list action) (g : FarmingGame) :
  game_over g = false -> game_over (run acts g) = true ->
  In Quit acts \/ GAME_GOAL <= money (run acts g).
Proof.
  revert g. induction acts as [|a acts IH]; intros g Hg Hover.
  - cbn [run] in Hover. congruence.
  - cbn [run] in Hover |- *. rewrite Hg in Hover |- *.
    destruct (game_over (do_action a g)) eqn:Ea.
    + rewrite (run_over acts _ Ea).
      apply do_action_game_over in Ea
        as [Ea | [-> | (chance & pick & -> & Hgoal & _)]].
      * congruence.
      * left. now left.
      * right. cbn [do_action].
        destruct (advance_day_frame chance pick g) as (-> & _). exact Hgoal.
    + destruct (IH _ Ea Hover) as [Hq | Hgoal].
      * left. now right.
      * now right.
Qed.

Lemma run_ends_by_quit_or_goal_rich :
  In Quit [Water None; a_normal_day; Water (Some 1)] \/
  GAME_GOAL <= money (run [Water None; a_normal_day; Water (Some 1)]
                        (set_money init 512)).
Proof.
  apply run_ends_by_quit_or_goal; vm_compute; reflexivity.
Defined.

(** X18.  After [Quit] nothing is read: the commands that follow it do
    not change the outcome of [run], and the game is over. *)
Theorem run_stops_at_quit (acts1 acts2 : list action) (g : FarmingGame) :
  run (acts1 ++ Quit :: acts2) g = run (acts1 ++ [Quit]) g /\
  game_over (run (acts1 ++ Quit :: acts2) g) = true.
Proof.
  revert g. induction acts1 as [|a acts1 IH]; intros g.
  - cbn [app run do_action]. destruct (game_over g) eqn:Hg.
    + auto.
    + rewrite run_over by reflexivity. auto.
  - rewrite <- !app_comm_cons. cbn [run].
    destruct (game_over g) eqn:Hg; [auto | apply IH].
Qed.

(** X19.  The goal is checked at nightfall only: a balance at or above
    [GAME_GOAL] ends the game at the next day advance of play, and no
    planting, watering, harvest, shop visit or look at the inventory
    ends it. *)
Theorem goal_checked_at_night (a : action) (g : FarmingGame) :
  reachable g -> game_over g = false -> a <> Quit ->
  (game_over (do_action a g) = true <->
   GAME_GOAL <= money g /\ exists chance pick, a = NextDay chance pick).
Proof.
  intros Hr Hg Hq. rewrite do_action_game_over. split.
  - intros [H | [H | (chance & pick & H & Hgoal & _)]];
      [congruence | contradiction | eauto].
  - intros (Hgoal & chance & pick & ->). right. right.
    exists chance, pick. split; [reflexivity | split; [exact Hgoal |]].
    rewrite advance_day_unfold. cbn [snd].
    apply handle_random_event_no_key_error.
    rewrite crops_known_grown. now apply reachable_crops_known.
Qed.

Lemma goal_checked_at_night_potato :
  game_over (do_action (Harvest (Some 1)) potato_grown) = true <->
  GAME_GOAL <= money potato_grown /\
  exists chance pick, Harvest (Some 1) = NextDay chance pick.
Proof.
  apply goal_checked_at_night.
  - exact potato_grown_reachable.
  - vm_compute. reflexivity.
  - discriminate.
Defined.

(** ** Nights *)

Lemma grown_lookup (g : FarmingGame) (i : nat) (p : plot) :
  farm_plots g !! i = Some p ->
  farm_plots (grown g) !! i = Some (grow_plot p).
Proof.
  intros Hp. unfold grown. cbn [set_farm_plots farm_plots].
  change (map grow_plot (farm_plots g)) with (grow_plot <$> farm_plots g).
  rewrite list_lookup_fmap, Hp. reflexivity.
Qed.

Lemma grow_plot_crop (p : plot) : crop (grow_plot p) = crop p.
Proof.
  unfold grow_plot. destruct (crop p) as [c|] eqn:Ec; cbn [crop];
    [reflexivity | exact Ec].
Qed.

Lemma grow_plot_stage (p : plot) :
  growth_stage (grow_plot p) = growth_stage p \/
  growth_stage (grow_plot p) = growth_stage p + 1 /\
  crop p <> None /\ watered p = true.
Proof.
  unfold grow_plot. destruct (crop p) as [c|]; [| now left].
  cbn [growth_stage]. destruct (watered p); [right | now left].
  split; [reflexivity | split; [discriminate | reflexivity]].
Qed.

(** ** The day advance, on every day *)

Lemma grow_plot_planted (p : plot) :
  crop p <> None ->
  grow_plot p
  = {| crop := crop p;
       growth_stage :=
         if watered p then growth_stage p + 1 else growth_stage p;
       watered := false |}.
Proof.
  unfold grow_plot. destruct (crop p); [reflexivity | contradiction].
Qed.

Lemma grow_plot_empty (p : plot) : crop p = None -> grow_plot p = p.
Proof. unfold grow_plot. now intros ->. Qed.

(** The plots after the event, by the two comparisons of the handler. *)
Lemma handle_random_event_plots (chance : Q) (pick : nat)
    (g : FarmingGame) :
  let ps' := farm_plots (fst (handle_random_event chance pick g)) in
  (Qltb chance lit_0_15 = true ->
   ps' = farm_plots g \/
   exists (i : nat) p c info,
     farm_plots g !! i = Some p /\ crop p = Some c /\
     crop_lookup c = Some info /\ growth_stage p < growth_time info /\
     ps' = <[i := damage p]> (farm_plots g)) /\
  (Qltb chance lit_0_15 = false -> Qltb chance lit_0_30 = true ->
   ps' = map rain_on (farm_plots g)) /\
  (Qltb chance lit_0_15 = false -> Qltb chance lit_0_30 = false ->
   ps' = farm_plots g).
Proof.
  cbv zeta. unfold handle_random_event.
  destruct (Qltb chance lit_0_15); [| destruct (Qltb chance lit_0_30)].
  - split; [intros _ | split; discriminate].
    destruct (growing_plots g) as [[|i0 gs]|] eqn:Egs; cbn [fst]; auto.
    set (i := nth _ _ _).
    assert (Hin : i ∈ i0 :: gs).
    { assert (Hlt : (pick mod length (i0 :: gs) < length (i0 :: gs))%nat)
        by (apply Nat.mod_upper_bound; cbn [length]; lia).
      destruct (lookup_lt_is_Some_2 _ _ Hlt) as [j Hj].
      subst i. rewrite nth_lookup, Hj. cbn [default from_option id].
      apply list_elem_of_lookup. eauto. }
    apply (growing_plots_spec g _ Egs) in Hin.
    destruct Hin as (p & c & info & Hp & Hc & Hinfo & Hlt).
    rewrite Hp. cbn [fst set_farm_plots farm_plots]. right.
    exists i, p, c, info. auto.
  - split; [discriminate | split; [auto | discriminate]].
  - split; [discriminate | split; [discriminate | auto]].
Qed.

(** One sample falls in exactly one of the three ranges. *)
Lemma sample_event_cases (k : Z) :
  ((sample k < 0.15)%Q /\ Qltb (sample k) lit_0_15 = true) \/
  ((0.15 <= sample k)%Q /\ (sample k < 0.30)%Q /\
   Qltb (sample k) lit_0_15 = false /\ Qltb (sample k) lit_0_30 = true) \/
  ((0.30 <= sample k)%Q /\
   Qltb (sample k) lit_0_15 = false /\ Qltb (sample k) lit_0_30 = false).
Proof.
  destruct (Qltb (sample k) lit_0_15) eqn:E15.
  - left. split; [now apply sample_pest | reflexivity].
  - right. apply sample_not_pest in E15 as H15.
    destruct (Qltb (sample k) lit_0_30) eqn:E30.
    + left. apply sample_below_0_30 in E30 as H30. auto.
    + right. apply sample_normal in E30 as H30. auto.
Qed.

(** Two bounds on the sample that exclude each other. *)
Ltac range_clash :=
  exfalso;
  match goal with
  | H1 : (?a <= ?x)%Q, H2 : (?x < ?b)%Q |- _ =>
    let H := fresh in
    pose proof (Qle_lt_trans _ _ _ H1 H2) as H;
    vm_compute in H; discriminate H
  end.

(** A quarter: a sample in the range of the rain. *)
Definition quarter : Z := 2251799813685248.

(** C2, amended.  The day advance adds exactly 1 to the day and keeps
    the plots and their crops, whatever the random event.  On every day
    the growth comes first: a planted plot that was watered is one stage
    further, with no cap at the growth time, one that was not watered
    keeps its stage, and in both cases its watered flag is cleared; an
    empty plot is left as it is.  The event then acts on the plots so
    grown: from 0.30 on they stay; from 0.15 and below 0.30 the rain
    sets every flag and changes no stage; below 0.15 the flags stay
    cleared and at most one plot, a planted one still below its growth
    time, is set back one stage, not below 0. *)
Theorem advance_day_grows (k : Z) (pick : nat) (g : FarmingGame) :
  let chance := sample k in
  let g' := fst (advance_day chance pick g) in
  let night :=
    map (fun p =>
           match crop p with
           | None => p
           | Some _ =>
             {| crop := crop p;
                growth_stage :=
                  if watered p then growth_stage p + 1 else growth_stage p;
                watered := false |}
           end) (farm_plots g) in
  day g' = day g + 1 /\
  length (farm_plots g') = length (farm_plots g) /\
  (forall (i : nat) p, farm_plots g !! i = Some p ->
     exists p', farm_plots g' !! i = Some p' /\ crop p' = crop p /\
       (crop p <> None ->
        let stage :=
          if watered p then growth_stage p + 1 else growth_stage p in
        ((0.30 <= chance)%Q ->
         growth_stage p' = stage /\ watered p' = false) /\
        ((0.15 <= chance)%Q -> (chance < 0.30)%Q ->
         growth_stage p' = stage /\ watered p' = true) /\
        ((chance < 0.15)%Q ->
         (growth_stage p' = stage \/
          growth_stage p' = Z.max 0 (stage - 1)) /\
         watered p' = false)) /\
       (crop p = None ->
        growth_stage p' = growth_stage p /\
        ((0.15 <= chance)%Q -> (chance < 0.30)%Q -> watered p' = true) /\
        ((chance < 0.15)%Q \/ (0.30 <= chance)%Q ->
         watered p' = watered p))) /\
  ((0.30 <= chance)%Q -> farm_plots g' = night) /\
  ((0.15 <= chance)%Q -> (chance < 0.30)%Q ->
   farm_plots g'
   = map (fun p => {| crop := crop p; growth_stage := growth_stage p;
                      watered := true |}) night) /\
  ((chance < 0.15)%Q ->
   farm_plots g' = night \/
   exists (i : nat) p c info,
     night !! i = Some p /\ crop p = Some c /\
     crop_lookup c = Some info /\ growth_stage p < growth_time info /\
     farm_plots g'
     = <[i := {| crop := crop p;
                 growth_stage := Z.max 0 (growth_stage p - 1);
                 watered := watered p |}]> night).
Proof.
  cbv zeta. split; [apply advance_day_day |].
  destruct (advance_day_frame (sample k) pick g) as (_ & _ & Hplots & Hlen).
  split; [exact Hlen |].
  destruct (handle_random_event_plots (sample k) pick (grown g))
    as (Hpest & Hrain & Hnorm).
  cbv zeta in Hpest, Hrain, Hnorm.
  rewrite <- Hplots in Hpest, Hrain, Hnorm.
  change (farm_plots (grown g)) with (map grow_plot (farm_plots g))
    in Hpest, Hrain, Hnorm.
  split; [| split; [| split]].
  - intros i p Hp.
    assert (Hn : map grow_plot (farm_plots g) !! i = Some (grow_plot p)).
    { change (map grow_plot (farm_plots g))
        with (grow_plot <$> farm_plots g).
      rewrite list_lookup_fmap, Hp. reflexivity. }
    assert (Hgrown : forall p',
              p' = grow_plot p \/ p' = damage (grow_plot p) ->
              crop p' = crop p /\
              (crop p <> None ->
               (growth_stage p' =
                  (if watered p then growth_stage p + 1 else growth_stage p)
                \/ growth_stage p' =
                   Z.max 0 ((if watered p then growth_stage p + 1
                             else growth_stage p) - 1)) /\
               watered p' = false)).
    { intros p' [-> | ->]; cbn [damage crop growth_stage watered];
        (split; [apply grow_plot_crop |]); intros Hc;
        rewrite (grow_plot_planted p Hc); cbn [growth_stage watered]; auto. }
    destruct (sample_event_cases k)
      as [(H15 & E15) | [(H15 & H30 & E15 & E30) | (H30 & E15 & E30)]].
    + assert (Hcase : exists p', farm_plots (fst (advance_day (sample k) pick g))
                                 !! i = Some p' /\
                (p' = grow_plot p \/
                 p' = damage (grow_plot p) /\ crop p <> None)).
      { destruct (Hpest E15)
          as [-> | (j & q & c & info & Hq & Hc & _ & _ & ->)];
          [eauto |].
        destruct (decide (j = i)) as [-> | Hne].
        - rewrite Hn in Hq. injection Hq as <-.
          rewrite list_lookup_insert_eq by (eapply lookup_lt_Some; exact Hn).
          exists (damage (grow_plot p)). split; [reflexivity |]. right.
          split; [reflexivity |]. rewrite grow_plot_crop in Hc. congruence.
        - rewrite list_lookup_insert_ne by exact Hne. eauto. }
      destruct Hcase as (p' & Hp' & Hcase). exists p'.
      split; [exact Hp' |].
      assert (Hor : p' = grow_plot p \/ p' = damage (grow_plot p))
        by (destruct Hcase as [? | [? _]]; auto).
      destruct (Hgrown p' Hor) as [Hcrop Hplanted].
      split; [exact Hcrop |]. split.
      * intros Hc. cbv zeta.
        split; [intros; range_clash |]. split; [intros; range_clash |].
        intros _. exact (Hplanted Hc).
      * intros Hc. destruct Hcase as [-> | [_ Hne]]; [| contradiction].
        rewrite (grow_plot_empty p Hc).
        split; [reflexivity |]. split; [intros; range_clash | reflexivity].
    + exists (rain_on (grow_plot p)). split.
      { rewrite (Hrain E15 E30).
        change (map rain_on (map grow_plot (farm_plots g)))
          with (rain_on <$> map grow_plot (farm_plots g)).
        rewrite list_lookup_fmap, Hn. reflexivity. }
      cbn [rain_on crop growth_stage watered].
      split; [apply grow_plot_crop |]. split.
      * intros Hc. cbv zeta. rewrite (grow_plot_planted p Hc).
        cbn [growth_stage].
        split; [intros; range_clash |]. split; [auto |].
        intros; range_clash.
      * intros Hc. rewrite (grow_plot_empty p Hc).
        split; [reflexivity |]. split; [reflexivity |].
        intros [? | ?]; range_clash.
    + exists (grow_plot p). split; [now rewrite (Hnorm E15 E30) |].
      split; [apply grow_plot_crop |]. split.
      * intros Hc. cbv zeta. rewrite (grow_plot_planted p Hc).
        cbn [growth_stage watered].
        split; [auto |]. split; intros; range_clash.
      * intros Hc. rewrite (grow_plot_empty p Hc).
        split; [reflexivity |]. split; [intros; range_clash | reflexivity].
  - intros H30.
    destruct (sample_event_cases k)
      as [(H15 & _) | [(_ & H30' & _) | (_ & E15 & E30)]];
      [range_clash | range_clash |].
    exact (Hnorm E15 E30).
  - intros H15 H30.
    destruct (sample_event_cases k)
      as [(H15' & _) | [(_ & _ & E15 & E30) | (H30' & _)]];
      [range_clash | | range_clash].
    exact (Hrain E15 E30).
  - intros H15.
    destruct (sample_event_cases k)
      as [(_ & E15) | [(H15' & _) | (H30 & _)]];
      [| range_clash | range_clash].
    exact (Hpest E15).
Qed.

Lemma advance_day_grows_ready_and_watered :
  day (fst (advance_day (sample quarter) 0 ready_and_watered))
  = day ready_and_watered + 1 /\
  farm_plots (fst (advance_day (sample quarter) 0 ready_and_watered))
  = map (fun p => {| crop := crop p; growth_stage := growth_stage p;
                     watered := true |})
      (map (fun p =>
              match crop p with
              | None => p
              | Some _ =>
                {| crop := crop p;
                   growth_stage :=
                     if watered p then growth_stage p + 1
                     else growth_stage p;
                   watered := false |}
              end) (farm_plots ready_and_watered)).
Proof.
  destruct (advance_day_grows quarter 0 ready_and_watered)
    as (Hday & _ & _ & _ & Hrain & _).
  split; [exact Hday |]. apply Hrain.
  - vm_compute. discriminate.
  - vm_compute. reflexivity.
Defined.

(** X20.  A night changes little.  Whatever the random event, the day
    advance leaves the balance and the inventory alone and keeps the
    plots and their crops; where no stage is negative, as in play, a
    plot ends the night at most one stage from where it was and not
    below 0, and only a planted, watered plot gains a stage. *)
Theorem night_changes_little (chance : Q) (pick : nat) (g : FarmingGame) :
  Forall (fun p => 0 <= growth_stage p) (farm_plots g) ->
  let g' := fst (advance_day chance pick g) in
  money g' = money g /\ inventory g' = inventory g /\
  length (farm_plots g') = length (farm_plots g) /\
  forall (i : nat) p, farm_plots g !! i = Some p ->
    exists p', farm_plots g' !! i = Some p' /\ crop p' = crop p /\
      0 <= growth_stage p' /\
      growth_stage p - 1 <= growth_stage p' <= growth_stage p + 1 /\
      (growth_stage p < growth_stage p' ->
       crop p <> None /\ watered p = true).
Proof.
  intros Hpos. cbv zeta.
  destruct (advance_day_frame chance pick g) as (Hm & Hi & Hp & Hl).
  split; [exact Hm |]. split; [exact Hi |]. split; [exact Hl |].
  intros i p Hip. rewrite Hp.
  destruct (handle_random_event_plot chance pick (grown g) i (grow_plot p)
              (grown_lookup g i p Hip)) as (p' & Hp' & Hc & Hs).
  exists p'. split; [exact Hp' |].
  rewrite Hc, grow_plot_crop. split; [reflexivity |].
  pose proof (Forall_lookup_1 _ _ _ _ Hpos Hip) as H0. cbv beta in H0.
  destruct (grow_plot_stage p) as [Hg | (Hg & Hcrop & Hwet)];
    destruct Hs as [Hs | Hs]; rewrite Hs, Hg;
    (split; [lia | split; [lia |]]);
    intros Hlt; first [lia | split; assumption].
Qed.

Lemma night_changes_little_potato :
  money (fst (advance_day (sample 0) 0 potato_grown)) = money potato_grown /\
  inventory (fst (advance_day (sample 0) 0 potato_grown))
  = inventory potato_grown /\
  length (farm_plots (fst (advance_day (sample 0) 0 potato_grown)))
  = length (farm_plots potato_grown).
Proof.
  assert (H : Forall (fun p => 0 <= growth_stage p) (farm_plots potato_grown)).
  { vm_compute. repeat constructor; discriminate. }
  destruct (night_changes_little (sample 0) 0 potato_grown H)
    as (Hm & Hi & Hl & _).
  split; [exact Hm | split; [exact Hi | exact Hl]].
Defined.

(** X21.  Rain waters for tomorrow.  After a day advance with rain
    every plot is watered, so on the next day advance, if it brings no
    event, every planted plot grows one stage without the player having
    watered it. *)
Theorem rain_waters_for_tomorrow (chance : Q) (pick : nat) (k' : Z)
    (pick' : nat) (g : FarmingGame) :
  snd (advance_day chance pick g) = Rain -> (0.30 <= sample k')%Q ->
  let g1 := fst (advance_day chance pick g) in
  let g2 := fst (advance_day (sample k') pick' g1) in
  Forall (fun p => watered p = true) (farm_plots g1) /\
  forall (i : nat) p, farm_plots g1 !! i = Some p -> crop p <> None ->
    exists p', farm_plots g2 !! i = Some p' /\ crop p' = crop p /\
      growth_stage p' = growth_stage p + 1 /\ watered p' = false.
Proof.
  intros Hrain Hk'. cbv zeta.
  assert (Hwet : Forall (fun p => watered p = true)
                   (farm_plots (fst (advance_day chance pick g)))).
  { destruct (advance_day_frame chance pick g) as (_ & _ & -> & _).
    rewrite advance_day_unfold in Hrain. cbn [snd] in Hrain.
    rewrite (handle_random_event_rain _ _ _ Hrain).
    cbn [set_farm_plots farm_plots].
    apply Forall_map, Forall_forall. intros p _. reflexivity. }
  split; [exact Hwet |].
  set (g1 := fst (advance_day chance pick g)) in *.
  intros i p Hp Hcrop.
  destruct (advance_day_frame (sample k') pick' g1) as (_ & _ & -> & _).
  rewrite (handle_random_event_normal k' pick' (grown g1) Hk'). cbn [fst].
  exists (grow_plot p). split; [now apply grown_lookup |].
  pose proof (Forall_lookup_1 _ _ _ _ Hwet Hp) as Hw. cbv beta in Hw.
  unfold grow_plot. destruct (crop p) as [c|]; [| contradiction].
  cbn [crop growth_stage watered]. rewrite Hw. auto.
Qed.

Lemma rain_waters_for_tomorrow_init :
  Forall (fun p => watered p = true)
    (farm_plots (fst (advance_day (1 # 5) 0
                        (fst (plant "wheat" (Some 1) init))))).
Proof.
  apply (rain_waters_for_tomorrow (1 # 5) 0 half 0
           (fst (plant "wheat" (Some 1) init))).
  - vm_compute. reflexivity.
  - vm_compute. discriminate.
Defined.

(** ** What a command can touch *)

Lemma visit_shop_money_le (cs : list string) (g : FarmingGame) :
  money (fst (visit_shop cs g)) <= money g.
Proof.
  revert g. induction cs as [|c cs IH]; intros g.
  - cbn [visit_shop fst]. lia.
  - destruct (String.eqb c "exit") eqn:Hc.
    + cbn [visit_shop]. rewrite Hc. cbn [fst]. lia.
    + rewrite (visit_shop_cons c cs g Hc). cbn [fst].
      specialize (IH (fst (buy_seed c g))).
      destruct (buy_seed_cases c g)
        as [[_ H] | [(info & _ & _ & H) | (info & Hinfo & _ & H)]];
        rewrite H in *; cbn [fst money] in *; try exact IH.
      apply crop_prices in Hinfo. lia.
Qed.

(** X22.  Each command touches only its own part of the state.  The
    balance changes only at a harvest, which never lowers it, and in the
    shop, which never raises it; the inventory changes only at a
    planting and in the shop; the day changes only at a day advance; and
    no command changes the number of plots. *)
Theorem command_footprint (a : action) (g : FarmingGame) :
  let g' := do_action a g in
  (money g' <> money g ->
   (exists i, a = Harvest i /\ money g < money g') \/
   (exists cs, a = Shop cs /\ money g' < money g)) /\
  (inventory g' <> inventory g ->
   (exists s i, a = Plant s i) \/ (exists cs, a = Shop cs)) /\
  (day g' <> day g -> exists chance pick, a = NextDay chance pick) /\
  length (farm_plots g') = length (farm_plots g).
Proof.
  cbv zeta.
  destruct a as [s i | i | i | cs | | chance pick | |]; cbn [do_action].
  - destruct (plant_frame s i g) as (-> & -> & _ & ->).
    split; [congruence |]. split; [eauto |]. split; [congruence | reflexivity].
  - destruct (water_frame i g) as (-> & -> & _ & -> & ->).
    split; [congruence |]. split; [congruence |].
    split; [congruence | reflexivity].
  - destruct (harvest_frame i g) as (-> & _ & -> & ->).
    split; [| split; [congruence | split; [congruence | reflexivity]]].
    intros Hne. left. exists i. split; [reflexivity |].
    destruct (harvest_cases i g)
      as [[_ Hf] | (j & p & c & info & _ & _ & _ & Hinfo & _ & H)].
    + rewrite Hf in Hne. congruence.
    + rewrite H in Hne |- *. cbn [fst set_farm_plots set_money money] in *.
      apply crop_prices in Hinfo. lia.
  - destruct (visit_shop_frame cs g) as (-> & _ & ->).
    split; [| split; [eauto | split; [congruence | reflexivity]]].
    intros Hne. right. exists cs. split; [reflexivity |].
    pose proof (visit_shop_money_le cs g). lia.
  - split; [congruence |]. split; [congruence |].
    split; [congruence | reflexivity].
  - destruct (advance_day_frame chance pick g) as (-> & -> & _ & ->).
    split; [congruence |]. split; [congruence |].
    split; [eauto | reflexivity].
  - cbn [set_game_over money inventory day farm_plots].
    split; [congruence |]. split; [congruence |].
    split; [congruence | reflexivity].
  - split; [congruence |]. split; [congruence |].
    split; [congruence | reflexivity].
Qed.

Lemma command_footprint_harvest :
  (exists i, Harvest (Some 1) = Harvest i /\
     money potato_grown < money (do_action (Harvest (Some 1)) potato_grown)) \/
  (exists cs, Harvest (Some 1) = Shop cs /\
     money (do_action (Harvest (Some 1)) potato_grown) < money potato_grown).
Proof.
  apply (proj1 (command_footprint (Harvest (Some 1)) potato_grown)).
  vm_compute. discriminate.
Defined.

(** * The status display

    [FarmingGame.display_status] changes no state; what it prints is
    modelled as the list of the printed lines, as UTF-8 text. *)

(** The ['icon'] entries of [CROP_DATA]. *)
Definition CROP_ICON : list (string * string) :=
  [ ("wheat", "🌾"); ("corn", "🌽"); ("potato", "🥔"); ("carrot", "🥕") ].

Fixpoint icon_lookup (name : string) (d : list (string * string))
  : option string :=
  match d with
  | [] => None
  | (k, v) :: d' => if String.eqb name k then Some v else icon_lookup name d'
  end.

(** [CROP_DATA[name]['icon']]. *)
Definition crop_icon (name : string) : option string :=
  icon_lookup name CROP_ICON.

Fixpoint str_rep (s : string) (n : nat) : string :=
  match n with
  | O => ""
  | S n' => s +:+ str_rep s n'
  end.

(** Python's [s * n], empty when [n] is not positive. *)
Definition str_mul (s : string) (n : Z) : string := str_rep s (Z.to_nat n).

Definition upper (a : ascii) : ascii :=
  let n := nat_of_ascii a in
  if ((97 <=? n) && (n <=? 122))%nat then ascii_of_nat (n - 32) else a.

Definition lower (a : ascii) : ascii :=
  let n := nat_of_ascii a in
  if ((65 <=? n) && (n <=? 90))%nat then ascii_of_nat (n + 32) else a.

Fixpoint lower_all (s : string) : string :=
  match s with
  | EmptyString => EmptyString
  | String a rest => String (lower a) (lower_all rest)
  end.

(** [str.capitalize] on ASCII text, which the keys of [CROP_DATA] are. *)
Definition capitalize (s : string) : string :=
  match s with
  | EmptyString => EmptyString
  | String a rest => String (upper a) (lower_all rest)
  end.

Definition progress_bar (progress growth_time : Z) : string :=
  str_mul "#" progress +:+ str_mul "." (growth_time - progress).

(** The three kinds of line appended to [plot_display]. *)
Inductive plot_line :=
| EmptyLand (number : Z)
| ReadyCrop (number : Z) (icon crop_name status : string)
| GrowingCrop (number : Z) (icon crop_name bar status : string).

(** The f-strings of the three kinds of line. *)
Definition render (l : plot_line) : string :=
  match l with
  | EmptyLand n => "  [" +:+ pretty n +:+ "] Empty Land"
  | ReadyCrop n icon crop_name status =>
    "  [" +:+ pretty n +:+ "] " +:+ icon +:+ " " +:+ capitalize crop_name
    +:+ " [READY] " +:+ status
  | GrowingCrop n icon crop_name bar status =>
    "  [" +:+ pretty n +:+ "] " +:+ icon +:+ " " +:+ capitalize crop_name
    +:+ " [" +:+ bar +:+ "] " +:+ status
  end.

(** The body of the loop over [enumerate(self.farm_plots)]; [None] is
    the [KeyError] of a crop that is no key of [CROP_DATA]. *)
Definition plot_line_of (i : nat) (p : plot) : option plot_line :=
  match crop p with
  | None => Some (EmptyLand (Z.of_nat i + 1))
  | Some crop_name =>
    match crop_icon crop_name with
    | None => None
    | Some icon =>
      match crop_lookup crop_name with
      | None => None
      | Some info =>
        let progress := growth_stage p in
        let bar := progress_bar progress (growth_time info) in
        let status := if negb (watered p) then "Dry" else "Watered" in
        if progress >=? growth_time info
        then Some (ReadyCrop (Z.of_nat i + 1) icon crop_name status)
        else Some (GrowingCrop (Z.of_nat i + 1) icon crop_name bar status)
      end
    end
  end.

Fixpoint plot_display_from (i : nat) (ps : list plot)
  : option (list plot_line) :=
  match ps with
  | [] => Some []
  | p :: rest =>
    match plot_line_of i p with
    | None => None
    | Some l =>
      match plot_display_from (S i) rest with
      | None => None
      | Some ls => Some (l :: ls)
      end
    end
  end.

Definition plot_display (g : FarmingGame) : option (list plot_line) :=
  plot_display_from 0 (farm_plots g).

(** [FarmingGame.display_status]: the lines printed, and [KeyError] when
    the loop raised, after the five lines of the head were printed. *)
Definition display_status (g : FarmingGame) : list string * outcome :=
  let head :=
    [ str_mul "=" 40;
      "☀️  Day: " +:+ pretty (day g) +:+ "  | 💰 Money: $"
      +:+ pretty (money g);
      "🎯 Goal: Reach $" +:+ pretty GAME_GOAL;
      str_mul "-" 40;
      "🌱 Your Farm Plots:" ] in
  match plot_display g with
  | None => (head, KeyError)
  | Some ls => ((head ++ map render ls ++ [str_mul "=" 40])%list, Success)
  end.

Example status_of_mixed_farm :
  display_status mixed_farm
  = ([ "========================================";
       "☀️  Day: 1  | 💰 Money: $100";
       "🎯 Goal: Reach $500";
       "----------------------------------------";
       "🌱 Your Farm Plots:";
       "  [1] 🌾 Wheat [READY] Dry";
       "  [2] 🌽 Corn [##...] Watered";
       "  [3] Empty Land";
       "  [4] 🥔 Potato [...] Dry";
       "========================================" ], Success).
Proof. vm_compute. reflexivity. Qed.

Lemma crop_icon_known (c : string) :
  is_Some (crop_icon c) <-> is_Some (crop_lookup c).
Proof.
  unfold crop_icon, crop_lookup, CROP_ICON, CROP_DATA.
  cbn [icon_lookup assoc_lookup].
  repeat case_match; split; intros [x Hx]; first [discriminate Hx | eauto].
Qed.

Lemma str_rep_length (s : string) (n : nat) :
  String.length (str_rep s n) = (n * String.length s)%nat.
Proof.
  induction n as [|n IH]; [reflexivity |].
  cbn [str_rep]. rewrite string_length_append, IH. lia.
Qed.

Lemma progress_bar_length (progress growth_time : Z) :
  0 <= progress <= growth_time ->
  Z.of_nat (String.length (progress_bar progress growth_time)) = growth_time.
Proof.
  intros H. unfold progress_bar, str_mul.
  rewrite string_length_append, !str_rep_length. cbn [String.length]. lia.
Qed.

Lemma plot_line_of_known (i : nat) (p : plot) :
  plot_known p = true -> is_Some (plot_line_of i p).
Proof.
  unfold plot_known, plot_line_of. destruct (crop p) as [c|]; [| eauto].
  pose proof (crop_icon_known c) as Hicon.
  destruct (crop_lookup c) as [info|]; [| discriminate]. intros _.
  destruct (proj2 Hicon (ex_intro _ info eq_refl)) as [icon ->].
  cbv zeta. destruct (_ >=? _); eauto.
Qed.

Lemma plot_display_from_known (i0 : nat) (ps : list plot) :
  forallb plot_known ps = true -> is_Some (plot_display_from i0 ps).
Proof.
  revert i0. induction ps as [|p ps IH]; intros i0 H; cbn [plot_display_from].
  - eauto.
  - cbn [forallb] in H. apply andb_true_iff in H as [Hp Hps].
    destruct (plot_line_of_known i0 p Hp) as [l ->].
    destruct (IH (S i0) Hps) as [ls ->]. eauto.
Qed.

Lemma plot_display_from_lookup (i0 : nat) (ps : list plot)
    (ls : list plot_line) :
  plot_display_from i0 ps = Some ls ->
  length ls = length ps /\
  forall (j : nat) p, ps !! j = Some p ->
    exists l, plot_line_of (i0 + j) p = Some l /\ ls !! j = Some l.
Proof.
  revert i0 ls. induction ps as [|p ps IH]; intros i0 ls H;
    cbn [plot_display_from] in H.
  - injection H as <-. split; [reflexivity |].
    intros j q Hq. rewrite lookup_nil in Hq. discriminate.
  - destruct (plot_line_of i0 p) as [l|] eqn:El; [| discriminate].
    destruct (plot_display_from (S i0) ps) as [ls'|] eqn:Els;
      [| discriminate].
    injection H as <-. destruct (IH (S i0) ls' Els) as [Hlen Hlook].
    split; [cbn [length]; now rewrite Hlen |].
    intros [|j] q Hq.
    + injection Hq as <-. exists l. rewrite Nat.add_0_r. auto.
    + destruct (Hlook j q Hq) as (l' & Hl' & Hj).
      exists l'. replace (i0 + S j)%nat with (S i0 + j)%nat by lia. auto.
Qed.

(** X23.  The display and the harvest agree: the status shows a plot as
    [READY] exactly when a harvest of that plot succeeds. *)
Theorem ready_shown_iff_harvestable (g : FarmingGame) (i : nat) (p : plot) :
  farm_plots g !! i = Some p ->
  ((exists n icon c status,
      plot_line_of i p = Some (ReadyCrop n icon c status)) <->
   snd (harvest (Some (Z.of_nat i + 1)) g) = Success).
Proof.
  intros Hp. rewrite (harvest_at i p g Hp). unfold plot_line_of.
  destruct (crop p) as [c|].
  - pose proof (crop_icon_known c) as Hicon.
    destruct (crop_lookup c) as [info|].
    + destruct (proj2 Hicon (ex_intro _ info eq_refl)) as [icon ->].
      cbv zeta. rewrite Z.geb_leb.
      destruct (Z.ltb_spec (growth_stage p) (growth_time info));
        destruct (Z.leb_spec (growth_time info) (growth_stage p));
        try lia; cbn [snd]; split.
      * intros (n & ic & c' & s & H'). discriminate H'.
      * discriminate.
      * reflexivity.
      * intros _. eauto.
    + cbn [snd]. split; [| discriminate].
      intros (n & ic & c' & s & H'). destruct (crop_icon c); discriminate H'.
  - cbn [snd]. split; [| discriminate].
    intros (n & ic & c' & s & H'). discriminate H'.
Qed.

Lemma ready_shown_iff_harvestable_potato :
  (exists n icon c status,
     plot_line_of 0 {| crop := Some "potato"; growth_stage := 3;
                       watered := false |}
     = Some (ReadyCrop n icon c status)) <->
  snd (harvest (Some (Z.of_nat 0 + 1)) potato_grown) = Success.
Proof.
  apply ready_shown_iff_harvestable. vm_compute. reflexivity.
Defined.

(** X24.  In play the progress bar of a growing crop is as long as the
    growth time of the crop: one [#] for each stage reached, then one
    [.] for each stage still to grow. *)
Theorem progress_bar_in_play (g : FarmingGame) (i : nat) (p : plot)
    (n : Z) (icon c bar status : string) :
  reachable g -> farm_plots g !! i = Some p ->
  plot_line_of i p = Some (GrowingCrop n icon c bar status) ->
  exists info,
    crop p = Some c /\ crop_lookup c = Some info /\
    0 <= growth_stage p < growth_time info /\
    bar = str_rep "#" (Z.to_nat (growth_stage p))
          +:+ str_rep "." (Z.to_nat (growth_time info) -
                           Z.to_nat (growth_stage p)) /\
    Z.of_nat (String.length bar) = growth_time info.
Proof.
  intros Hr Hp Hline. apply reachable_inv in Hr.
  destruct (Forall_lookup_1 _ _ _ _ (inv_plots g Hr) Hp) as [[Hpos _] _].
  unfold plot_line_of in Hline.
  destruct (crop p) as [c'|]; [| discriminate].
  destruct (crop_icon c') as [icon'|]; [| discriminate].
  destruct (crop_lookup c') as [info|] eqn:Einfo; [| discriminate].
  cbv zeta in Hline. rewrite Z.geb_leb in Hline.
  destruct (Z.leb_spec (growth_time info) (growth_stage p)) as [| Hlt];
    [discriminate |].
  injection Hline as _ _ <- <- _. exists info.
  split; [reflexivity |]. split; [exact Einfo |]. split; [lia |].
  split.
  - unfold progress_bar, str_mul. now rewrite Z2Nat.inj_sub by lia.
  - apply progress_bar_length. lia.
Qed.

Lemma progress_bar_in_play_init :
  exists info,
    crop {| crop := Some "wheat"; growth_stage := 0; watered := false |}
    = Some "wheat" /\
    crop_lookup "wheat" = Some info /\
    0 <= growth_stage {| crop := Some "wheat"; growth_stage := 0;
                         watered := false |} < growth_time info /\
    "...." = str_rep "#" (Z.to_nat (growth_stage
               {| crop := Some "wheat"; growth_stage := 0;
                  watered := false |}))
             +:+ str_rep "." (Z.to_nat (growth_time info) -
                              Z.to_nat (growth_stage
                                {| crop := Some "wheat"; growth_stage := 0;
                                   watered := false |})) /\
    Z.of_nat (String.length "....") = growth_time info.
Proof.
  apply (progress_bar_in_play (do_action (Plant "wheat" (Some 2)) init) 1
           {| crop := Some "wheat"; growth_stage := 0; watered := false |}
           2 "🌾" "wheat" "...." "Dry").
  - apply reach_step, reach_init.
  - vm_compute. reflexivity.
  - vm_compute. reflexivity.
Defined.

(** X25.  In play the status is always displayed in full: no
    [KeyError] cuts it short, it has ten lines, and the line of plot
    [i + 1], the sixth line and the following, is the one of the plot at
    position [i]. *)
Theorem display_status_in_play (g : FarmingGame) :
  reachable g ->
  snd (display_status g) = Success /\
  length (fst (display_status g)) = 10%nat /\
  forall (i : nat) p, farm_plots g !! i = Some p ->
    exists l, plot_line_of i p = Some l /\
      fst (display_status g) !! (5 + i)%nat = Some (render l).
Proof.
  intros Hr. pose proof (reachable_crops_known g Hr) as Hk.
  apply reachable_inv in Hr. pose proof (inv_count g Hr) as Hcount.
  destruct (plot_display_from_known 0 (farm_plots g) Hk) as [ls Hls].
  destruct (plot_display_from_lookup 0 (farm_plots g) ls Hls)
    as [Hlen Hlook].
  unfold display_status. cbv zeta. unfold plot_display. rewrite Hls.
  cbn [fst snd]. split; [reflexivity |]. split.
  - rewrite !length_app, length_map, Hlen, Hcount. reflexivity.
  - intros i p Hp. destruct (Hlook i p Hp) as (l & Hl & Hi).
    exists l. split; [exact Hl |].
    rewrite lookup_app_r by (cbn [length]; lia).
    replace (5 + i - length _)%nat with i by (cbn [length]; lia).
    rewrite lookup_app_l
      by (rewrite length_map; eapply lookup_lt_Some; exact Hi).
    change (map render ls) with (render <$> ls).
    rewrite list_lookup_fmap, Hi. reflexivity.
Qed.

Lemma display_status_in_play_potato_grown :
  snd (display_status potato_grown) = Success /\
  length (fst (display_status potato_grown)) = 10%nat /\
  forall (i : nat) p, farm_plots potato_grown !! i = Some p ->
    exists l, plot_line_of i p = Some l /\
      fst (display_status potato_grown) !! (5 + i)%nat = Some (render l).
Proof. apply display_status_in_play. exact potato_grown_reachable. Defined.
